(** * LocalEnvironmentService: the local execution backend of the trial
    dispatcher (ts/nni_manager/training_service/reusable/environments/
    localEnvironmentService.ts), as a shallow embedding.

    - Strings are sequences of code units below 256.
    - Environment records are objects that the caller shares with the
      service: they live in a heap and the service gets references.  A
      reference that is not in the heap reads as an empty record and ignores
      assignments; the properties are stated for references that are.
    - The outside world (file system, process table, helper commands) is a
      record of oracles, one answer per question; what the service asks and
      does is recorded in a trace, in order.
    - Every method is an async function: it completes normally (its promise
      is fulfilled) or abruptly (its promise is rejected with an error).
    - refreshEnvironmentsStatus starts one async callback per environment and
      awaits none of them.  Here a poll is the batch with each callback run to
      its end, one after the other, in one snapshot of the world; in the
      program the assignments of a callback land at its awaits, after the
      call has returned. *)

From Stdlib Require Import ZArith List String Ascii Bool Lia.
From stdpp Require Import base option list gmap strings.

Local Open Scope Z_scope.

(** ** The string built-ins the service calls *)

Module JS.

(** WhiteSpace and LineTerminator code units below 256: TAB, LF, VT, FF, CR,
    SP and NBSP.  Both [String.prototype.trim] and the class escape [\s] use
    this set. *)
Definition isWhiteSpace (c : ascii) : bool :=
  let n := nat_of_ascii c in
  ((9 <=? n)%nat && (n <=? 13)%nat) || (n =? 32)%nat || (n =? 160)%nat.

(** The class escape [\d]: the ten ASCII digits. *)
Definition isDigit (c : ascii) : bool :=
  let n := nat_of_ascii c in (48 <=? n)%nat && (n <=? 57)%nat.

Fixpoint trimStart (s : string) : string :=
  match s with
  | String c s' => if isWhiteSpace c then trimStart s' else s
  | EmptyString => EmptyString
  end.

Fixpoint trimEnd (s : string) : string :=
  match s with
  | String c s' =>
      match trimEnd s' with
      | EmptyString => if isWhiteSpace c then EmptyString else String c EmptyString
      | t => String c t
      end
  | EmptyString => EmptyString
  end.

(** [String.prototype.trim] *)
Definition trim (s : string) : string := trimEnd (trimStart s).

(** [Array.prototype.join] on an array of strings *)
Fixpoint join (sep : string) (l : list string) : string :=
  match l with
  | [] => EmptyString
  | [x] => x
  | x :: l' => x +:+ sep +:+ join sep l'
  end.

(** *** Regular expressions

    The fragment of the pattern language that the exit-code pattern is
    written in, with the backtracking semantics of the language: greedy
    quantifiers, numbered capture groups, and the assertions [^] and [$]
    without the multiline flag. *)

Inductive regex : Type :=
| Chr (c : ascii)
| Cls (p : ascii -> bool)
| Cat (r1 r2 : regex)
| Opt (r : regex)
| Plus (r : regex)
| Grp (n : nat) (r : regex)
| Bol
| Eol.

(** The part of [s] that was consumed to reach its suffix [rest]. *)
Definition consumed (s rest : string) : string :=
  substring 0 (String.length s - String.length rest) s.

Abbreviation captures := (gmap nat string).

(** Greedy repetition of [body], at least once: after each round try one
    more before giving the rest to [k].  A round on a class consumes one
    character, so [fuel] at least the length of [s] never runs out. *)
Fixpoint iterate
    (body : string -> captures -> (string -> captures -> option captures)
            -> option captures)
    (k : string -> captures -> option captures)
    (fuel : nat) (s : string) (caps : captures) {struct fuel} : option captures :=
  body s caps (fun s' caps' =>
    match fuel with
    | O => k s' caps'
    | S fuel' =>
        match iterate body k fuel' s' caps' with
        | Some c => Some c
        | None => k s' caps'
        end
    end).

(** [exec whole r s caps k]: match [r] at the suffix [s] of the input
    [whole], then continue with [k]; the first success in backtracking
    order wins. *)
Fixpoint exec (whole : string) (r : regex) (s : string) (caps : captures)
    (k : string -> captures -> option captures) {struct r} : option captures :=
  match r with
  | Chr c =>
      match s with
      | String x s' => if Ascii.eqb x c then k s' caps else None
      | EmptyString => None
      end
  | Cls p =>
      match s with
      | String x s' => if p x then k s' caps else None
      | EmptyString => None
      end
  | Cat r1 r2 => exec whole r1 s caps (fun s' caps' => exec whole r2 s' caps' k)
  | Opt r1 =>
      match exec whole r1 s caps k with
      | Some c => Some c
      | None => k s caps
      end
  | Plus r1 => iterate (exec whole r1) k (String.length s) s caps
  | Grp n r1 =>
      exec whole r1 s caps (fun s' caps' => k s' (<[n := consumed s s']> caps'))
  | Bol => if (String.length s =? String.length whole)%nat then k s caps else None
  | Eol => match s with EmptyString => k s caps | _ => None end
  end.

(** Try the start positions from left to right. *)
Fixpoint search (whole : string) (r : regex) (s : string) : option captures :=
  match exec whole r s ∅ (fun _ caps => Some caps) with
  | Some c => Some c
  | None =>
      match s with
      | String _ s' => search whole r s'
      | EmptyString => None
      end
  end.

(** [String.prototype.match] with a pattern that has no global flag: the
    capture groups of the first match, or [None] for [null]. *)
Definition match_ (s : string) (r : regex) : option captures := search s r s.

(** *** parseInt with radix 10

    Leading white space, an optional sign, then the longest run of digits;
    [None] is NaN.  The value is kept exact: the service only compares it with
    0, and rounding to a double maps no non-zero integer to 0. *)

Definition digitValue (c : ascii) : Z := Z.of_nat (nat_of_ascii c) - 48.

Fixpoint digitsValue (acc : Z) (s : string) : Z :=
  match s with
  | String c s' => if isDigit c then digitsValue (10 * acc + digitValue c) s' else acc
  | EmptyString => acc
  end.

Definition startsWithDigit (s : string) : bool :=
  match s with String c _ => isDigit c | EmptyString => false end.

Definition parseInt10 (s : string) : option Z :=
  match trimStart s with
  | String "-" s' => if startsWithDigit s' then Some (- digitsValue 0 s') else None
  | String "+" s' => if startsWithDigit s' then Some (digitsValue 0 s') else None
  | s' => if startsWithDigit s' then Some (digitsValue 0 s') else None
  end.

End JS.


(** ** Data model *)

(** Modelled from the spec: the statuses of an environment.  The type
    [EnvironmentStatus] is declared with the environment class in
    reusable/environment.ts, outside this file. *)
Inductive EnvironmentStatus : Type := WAITING | RUNNING | SUCCEEDED | FAILED.

#[global] Instance EnvironmentStatus_eq_dec : EqDecision EnvironmentStatus.
Proof. solve_decision. Defined.

(** Modelled from the spec: the environment record, class
    [EnvironmentInformation] of reusable/environment.ts, with the fields that
    this service reads or writes. *)
Module Env.
Record t : Type := mk {
  id : string;
  status : EnvironmentStatus;
  command : string;
  runnerWorkingFolder : string;
  trackingUrl : string;
  isAlive : bool
}.

Definition with_status (v : EnvironmentStatus) (e : t) : t :=
  mk (id e) v (command e) (runnerWorkingFolder e) (trackingUrl e) (isAlive e).
Definition with_command (v : string) (e : t) : t :=
  mk (id e) (status e) v (runnerWorkingFolder e) (trackingUrl e) (isAlive e).
Definition with_runnerWorkingFolder (v : string) (e : t) : t :=
  mk (id e) (status e) (command e) v (trackingUrl e) (isAlive e).
Definition with_trackingUrl (v : string) (e : t) : t :=
  mk (id e) (status e) (command e) (runnerWorkingFolder e) v (isAlive e).
End Env.

#[global] Instance Env_inhabited : Inhabited Env.t :=
  populate (Env.mk EmptyString WAITING EmptyString EmptyString EmptyString true).

(** Values produced by [JSON.parse].  There is no [undefined] among them. *)
Inductive json : Type :=
| JNull
| JBool (b : bool)
| JNumber (lexeme : string)
| JString (s : string)
| JArray (l : list json)
| JObject (members : list (string * json)).

(** A thrown [Error] object. *)
Record Error : Type := mkError { message : string }.

(** How a call completes: normally with a value, or abruptly with a thrown
    error (for an async function: a promise that is fulfilled or rejected). *)
Inductive completion (A : Type) : Type :=
| Normal (a : A)
| Throw (e : Error).
Arguments Normal {A} a.
Arguments Throw {A} e.

(** The number [Number(s)] of a string [s], kept symbolic. *)
Inductive jsnumber : Type := NumberOf (s : string).

(** What the service does to the outside world, in the order it does it. *)
Inductive Action : Type :=
| FsExistsSync (path : string)
| FsReadFile (path : string)
| FsWriteFile (path data : string) (mode : N)
| ExecMkdir (path : string)
| ExecCopydir (source destination : string)
| RunScript (path : string)
| IsAlive (pid : string)
| Tkill (pid : jsnumber) (signal : string)
| LogError (msg : string)
| LogDebug (msg : string).

(** What the outside world answers.  [existsSync] and [readFile] are
    independent: a path can exist and still fail to be read (a directory, a
    permission, a file removed in between). *)
Record World : Type := mkWorld {
  existsSync : string -> bool;
  readFile : string -> completion string;
  writeFile : string -> string -> N -> completion unit;
  execMkdir : string -> completion unit;
  execCopydir : string -> string -> completion unit;
  runScript : string -> completion unit;
  isAlive : string -> completion bool
}.

(** The run-time the service is loaded in: the platform, Node's [path.join]
    and [JSON.parse], and the helpers and the constant it imports from
    common/utils, training_service/common/util and trialConfigMetadataKey,
    which are declared outside this file. *)
Class Host : Type := mkHost {
  process_platform : string;
  path_join : list string -> string;
  JSON_parse : string -> completion json;
  getNewLine : string;
  getScriptName : string -> string;
  TRIAL_CONFIG : string
}.

(** The fields of the service object. *)
Record Service : Type := mkService {
  localTrialConfig : option json;   (* [None] is [undefined] *)
  experimentRootDir : string;
  experimentId : string
}.

Definition with_localTrialConfig (v : option json) (s : Service) : Service :=
  mkService v (experimentRootDir s) (experimentId s).

(** Environment records live in a heap and are passed by reference. *)
Abbreviation ref := nat (only parsing).

Record State : Type := mkState {
  this : Service;
  heap : gmap nat Env.t;
  trace : list Action
}.

(** ** The computation monad: state passing with abrupt completion *)

Definition M (A : Type) : Type := World -> State -> completion A * State.

#[global] Instance M_ret : MRet M := fun A a _ st => (Normal a, st).

#[global] Instance M_bind : MBind M := fun A B f m w st =>
  match m w st with
  | (Normal a, st') => f a w st'
  | (Throw e, st') => (Throw e, st')
  end.

Definition throw {A} (e : Error) : M A := fun _ st => (Throw e, st).

(** [try { body } catch (error) { handler }] *)
Definition try_catch {A} (body : M A) (handler : Error -> M A) : M A :=
  fun w st =>
    match body w st with
    | (Normal a, st') => (Normal a, st')
    | (Throw e, st') => handler e w st'
    end.

Definition perform (a : Action) : M unit :=
  fun _ st => (Normal tt, mkState (this st) (heap st) (trace st ++ [a])).

(** Ask the world, recording the question. *)
Definition ask {A} (a : Action) (answer : World -> completion A) : M A :=
  fun w st => (answer w, mkState (this st) (heap st) (trace st ++ [a])).

Definition getThis {A} (f : Service -> A) : M A :=
  fun _ st => (Normal (f (this st)), st).

Definition setThis (f : Service -> Service) : M unit :=
  fun _ st => (Normal tt, mkState (f (this st)) (heap st) (trace st)).

(** Read a field of the record behind a reference. *)
Definition get {A} (r : ref) (f : Env.t -> A) : M A :=
  fun _ st => (Normal (f (heap st !!! r)), st).

(** Assign a field of the record behind a reference. *)
Definition set (r : ref) (f : Env.t -> Env.t) : M unit :=
  fun _ st => (Normal tt, mkState (this st) (alter f r (heap st)) (trace st)).

(** [l.forEach(async x => ...)]: the callbacks are started in order and the
    promise each one returns is dropped, so neither its value nor its
    rejection reaches the caller.  The callbacks share only the log and the
    record each one is given; they are run here one after the other. *)
Fixpoint forEach_async {A} (callback : A -> M unit) (l : list A) : M unit :=
  match l with
  | [] => mret tt
  | x :: l' => fun w st => forEach_async callback l' w (callback x w st).2
  end.

(** ** The service *)

Section LocalEnvironmentService.
Context {host : Host}.

(** *** Collaborators: the log, the file system, the process helpers *)

Definition log_error (msg : string) : M unit := perform (LogError msg).
Definition log_debug (msg : string) : M unit := perform (LogDebug msg).

Definition fs_existsSync (path : string) : M bool :=
  ask (FsExistsSync path) (fun w => Normal (existsSync w path)).
Definition fs_promises_readFile (path : string) : M string :=
  ask (FsReadFile path) (fun w => readFile w path).
Definition fs_promises_writeFile (path data : string) (mode : N) : M unit :=
  ask (FsWriteFile path data mode) (fun w => writeFile w path data mode).
Definition util_execMkdir (path : string) : M unit :=
  ask (ExecMkdir path) (fun w => execMkdir w path).
Definition util_execCopydir (source destination : string) : M unit :=
  ask (ExecCopydir source destination) (fun w => execCopydir w source destination).
Definition util_runScript (path : string) : M unit :=
  ask (RunScript path) (fun w => runScript w path).
Definition utils_isAlive (pid : string) : M bool :=
  ask (IsAlive pid) (fun w => isAlive w pid).

(** [tkill(pid, signal)] is called without a callback and is not awaited:
    whether the signal is delivered never comes back to the caller. *)
Definition tkill (pid : jsnumber) (signal : string) : M unit :=
  perform (Tkill pid signal).

Definition JSON_parse_ (value : string) : M json :=
  fun _ st => (JSON_parse value, st).

(** Modelled from the spec: the record's status-setting capability
    ([setStatus] of the environment class, declared in
    reusable/environment.ts outside this file) stores the given status. *)
Definition setStatus (environment : ref) (s : EnvironmentStatus) : M unit :=
  set environment (Env.with_status s).

(** *** Getters *)

Definition environmentMaintenceLoopInterval : Z := 100.
Definition hasStorageService : bool := false.
Definition getName : string := "local".

(** *** config *)

Definition config (key value : string) : M unit :=
  if String.eqb key TRIAL_CONFIG then
    parsed ← JSON_parse_ value;
    setThis (with_localTrialConfig (Some parsed))
  else
    log_debug ("Local mode does not proccess metadata key: '" +:+ key
               +:+ "', value: '" +:+ value +:+ "'").

(** *** refreshEnvironmentsStatus *)

(** [/^-?(\d+)\s+(\d+)$/] *)
Definition returnCodePattern : JS.regex :=
  JS.Cat JS.Bol
    (JS.Cat (JS.Opt (JS.Chr "-"))
       (JS.Cat (JS.Grp 1 (JS.Plus (JS.Cls JS.isDigit)))
          (JS.Cat (JS.Plus (JS.Cls JS.isWhiteSpace))
             (JS.Cat (JS.Grp 2 (JS.Plus (JS.Cls JS.isDigit))) JS.Eol)))).

(** The body of the [try] block of the callback. *)
Definition checkStatus (environment : ref)
    (jobpidPath runnerReturnCodeFilePath : string) : M unit :=
  (* check if pid file exist *)
  pidExist ← fs_existsSync jobpidPath;
  if negb pidExist then mret tt else
  pid ← fs_promises_readFile jobpidPath;
  alive ← utils_isAlive pid;
  set environment (Env.with_status RUNNING);;
  (* if the process of jobpid is not alive any more *)
  if negb alive then
    codeExist ← fs_existsSync runnerReturnCodeFilePath;
    if (codeExist : bool) then
      runnerReturnCode ← fs_promises_readFile runnerReturnCodeFilePath;
      match JS.match_ (JS.trim runnerReturnCode) returnCodePattern with
      | Some groups =>
          let code := groups !!! 1%nat in
          (* Update trial job's status based on result code *)
          if bool_decide (JS.parseInt10 code = Some 0)
          then setStatus environment SUCCEEDED
          else setStatus environment FAILED
      | None => mret tt
      end
    else mret tt
  else mret tt.

(** The callback given to [forEach]. *)
Definition refreshEnvironmentStatus (environment : ref) : M unit :=
  runnerWorkingFolder ← get environment Env.runnerWorkingFolder;
  let jobpidPath := path_join [runnerWorkingFolder; "pid"] in
  let runnerReturnCodeFilePath := path_join [runnerWorkingFolder; "code"] in
  try_catch
    (checkStatus environment jobpidPath runnerReturnCodeFilePath)
    (fun error =>
       log_error ("Update job status exception, error is " +:+ message error)).

Definition refreshEnvironmentsStatus (environments : list ref) : M unit :=
  forEach_async refreshEnvironmentStatus environments.

(** *** getScript *)

Definition dq : string := String "034" EmptyString.
Definition backtick : string := String "096" EmptyString.

Definition getScript (environment : ref) : M (list string) :=
  root ← getThis experimentRootDir;
  if String.eqb process_platform "win32" then
    id ← get environment Env.id;
    let script :=
      [ "cd $env:" +:+ root;
        "New-Item -ItemType " +:+ dq +:+ "directory" +:+ dq +:+ " -Path "
          +:+ path_join [root; "envs"; id] +:+ " -Force" ] in
    set environment
      (Env.with_command
         ("cd envs\" +:+ id +:+ " && python -m nni.tools.trial_tool.trial_runner"));;
    command ← get environment Env.command;
    runnerWorkingFolder ← get environment Env.runnerWorkingFolder;
    mret (script ++
      [ "cmd.exe /c " +:+ command +:+ " --job_pid_file "
          +:+ path_join [runnerWorkingFolder; "pid"] +:+ " 2>&1 | Out-File " +:+ dq
          +:+ path_join [runnerWorkingFolder; "trial_runner.log"] +:+ dq
          +:+ " -encoding utf8";
        "$NOW_DATE = [int64](([datetime]::UtcNow)-(get-date " +:+ dq +:+ "1/1/1970"
          +:+ dq +:+ ")).TotalSeconds";
        "$NOW_DATE = " +:+ dq +:+ "$NOW_DATE" +:+ dq
          +:+ " + (Get-Date -Format fff).ToString()";
        "Write $LASTEXITCODE " +:+ dq +:+ " " +:+ dq +:+ " $NOW_DATE  | Out-File " +:+ dq
          +:+ path_join [runnerWorkingFolder; "code"] +:+ dq
          +:+ " -NoNewline -encoding utf8" ])
  else
    command ← get environment Env.command;
    runnerWorkingFolder ← get environment Env.runnerWorkingFolder;
    let script :=
      [ "cd " +:+ root;
        "eval " +:+ command +:+ " --job_pid_file " +:+ runnerWorkingFolder +:+ "/pid 1>"
          +:+ runnerWorkingFolder +:+ "/trialrunner_stdout 2>" +:+ runnerWorkingFolder
          +:+ "/trialrunner_stderr" +:+ dq ] in
    if String.eqb process_platform "darwin" then
      (* Considering the worst case, write 999 to avoid negative duration *)
      mret (script ++
        [ "echo $? " +:+ backtick +:+ "date +%s999" +:+ backtick +:+ " >'"
            +:+ runnerWorkingFolder +:+ "/code'" ])
    else
      mret (script ++
        [ "echo $? " +:+ backtick +:+ "date +%s%3N" +:+ backtick +:+ " >'"
            +:+ runnerWorkingFolder +:+ "/code'" ]).

(** *** startEnvironment *)

Definition startEnvironment (environment : ref) : M unit :=
  cfg ← getThis localTrialConfig;
  if bool_decide (cfg = None) then
    throw (mkError "Local trial config is not initialized")
  else
  (* Need refactor, this temp folder path is not appropriate, there are two
     expId in this path *)
  root ← getThis experimentRootDir;
  expId ← getThis experimentId;
  let localTempFolder := path_join [root; expId; "environment-temp"; "envs"] in
  let localEnvCodeFolder := path_join [root; "envs"] in
  id ← get environment Env.id;
  set environment (Env.with_runnerWorkingFolder (path_join [localEnvCodeFolder; id]));;
  runnerWorkingFolder ← get environment Env.runnerWorkingFolder;
  util_execMkdir runnerWorkingFolder;;
  util_execCopydir localTempFolder localEnvCodeFolder;;
  script ← getScript environment;
  set environment (Env.with_command (JS.join getNewLine script));;
  let scriptName := getScriptName "run" in
  command ← get environment Env.command;
  (* mode 0o777 *)
  fs_promises_writeFile (path_join [localEnvCodeFolder; scriptName]) command 511%N;;
  (* Execute command in local machine *)
  util_runScript (path_join [localEnvCodeFolder; scriptName]);;
  runnerWorkingFolder ← get environment Env.runnerWorkingFolder;
  set environment (Env.with_trackingUrl runnerWorkingFolder).

(** *** stopEnvironment *)

Definition stopEnvironment (environment : ref) : M unit :=
  alive ← get environment Env.isAlive;
  if negb alive then mret tt else
  runnerWorkingFolder ← get environment Env.runnerWorkingFolder;
  let jobpidPath := path_join [runnerWorkingFolder; "pid"] in
  pid ← fs_promises_readFile jobpidPath;
  tkill (NumberOf pid) "SIGKILL".

End LocalEnvironmentService.

(** ** A concrete run-time: Linux *)

(** [JSON.parse] on the grammar of JSON texts.  A [\u] escape is accepted
    when the code unit it names is below 256. *)
Module JSON.

Definition isWs (c : ascii) : bool :=
  let n := nat_of_ascii c in
  (n =? 9)%nat || (n =? 10)%nat || (n =? 13)%nat || (n =? 32)%nat.

Fixpoint skipWs (s : string) : string :=
  match s with
  | String c s' => if isWs c then skipWs s' else s
  | EmptyString => EmptyString
  end.

(** [expect lit s]: the rest of [s] after its prefix [lit]. *)
Fixpoint expect (lit s : string) : option string :=
  match lit, s with
  | EmptyString, _ => Some s
  | String a lit', String b s' => if Ascii.eqb a b then expect lit' s' else None
  | String _ _, EmptyString => None
  end.

(** The longest run of digits at the head of [s], and the rest. *)
Fixpoint digits (s : string) : string * string :=
  match s with
  | String c s' =>
      if JS.isDigit c then let '(d, r) := digits s' in (String c d, r)
      else (EmptyString, s)
  | EmptyString => (EmptyString, EmptyString)
  end.

Definition parseFraction (s : string) : option (string * string) :=
  match s with
  | String "." s' =>
      match digits s' with
      | (EmptyString, _) => None
      | (d, r) => Some (String "." d, r)
      end
  | _ => Some (EmptyString, s)
  end.

Definition parseExponent (s : string) : option (string * string) :=
  let body (e : ascii) (s' : string) :=
    let '(sign, s'') :=
      match s' with
      | String "+" t => ("+", t)
      | String "-" t => ("-", t)
      | _ => (EmptyString, s')
      end in
    match digits s'' with
    | (EmptyString, _) => None
    | (d, r) => Some (String e (sign +:+ d), r)
    end in
  match s with
  | String "e" s' => body "e"%char s'
  | String "E" s' => body "E"%char s'
  | _ => Some (EmptyString, s)
  end.

Definition parseNumber (s : string) : option (json * string) :=
  let '(sign, s1) :=
    match s with String "-" t => ("-", t) | _ => (EmptyString, s) end in
  match digits s1 with
  | (EmptyString, _) => None
  | (int, s2) =>
      match int with
      | String "0" (String _ _) => None      (* no leading zero *)
      | _ =>
          match parseFraction s2 with
          | Some (frac, s3) =>
              match parseExponent s3 with
              | Some (exp, s4) => Some (JNumber (sign +:+ int +:+ frac +:+ exp), s4)
              | None => None
              end
          | None => None
          end
      end
  end.

Definition hexValue (c : ascii) : option nat :=
  let n := nat_of_ascii c in
  if JS.isDigit c then Some (n - 48)%nat
  else if (97 <=? n)%nat && (n <=? 102)%nat then Some (n - 87)%nat
  else if (65 <=? n)%nat && (n <=? 70)%nat then Some (n - 55)%nat
  else None.

(** The characters of a string literal after its opening quote. *)
Fixpoint parseChars (s : string) : option (string * string) :=
  let cons (c : ascii) (r : option (string * string)) :=
    match r with Some (t, rest) => Some (String c t, rest) | None => None end in
  match s with
  | String "034" rest => Some (EmptyString, rest)
  | String "\" (String "u" (String a (String b (String c (String d rest))))) =>
      match hexValue a, hexValue b, hexValue c, hexValue d with
      | Some 0%nat, Some 0%nat, Some h, Some l =>
          cons (ascii_of_nat (16 * h + l)) (parseChars rest)
      | _, _, _, _ => None
      end
  | String "\" (String e rest) =>
      match e with
      | "034"%char => cons "034"%char (parseChars rest)
      | "\"%char => cons "\"%char (parseChars rest)
      | "/"%char => cons "/"%char (parseChars rest)
      | "b"%char => cons "008"%char (parseChars rest)
      | "f"%char => cons "012"%char (parseChars rest)
      | "n"%char => cons "010"%char (parseChars rest)
      | "r"%char => cons "013"%char (parseChars rest)
      | "t"%char => cons "009"%char (parseChars rest)
      | _ => None
      end
  | String c rest =>
      if (nat_of_ascii c <? 32)%nat then None else cons c (parseChars rest)
  | EmptyString => None
  end.

Fixpoint parseValue (fuel : nat) (s : string) {struct fuel} : option (json * string) :=
  match fuel with
  | O => None
  | S fuel' =>
      match skipWs s with
      | String "n" rest => option_map (pair JNull) (expect "ull" rest)
      | String "t" rest => option_map (pair (JBool true)) (expect "rue" rest)
      | String "f" rest => option_map (pair (JBool false)) (expect "alse" rest)
      | String "034" rest =>
          match parseChars rest with
          | Some (t, rest') => Some (JString t, rest')
          | None => None
          end
      | String "[" rest =>
          match skipWs rest with
          | String "]" rest' => Some (JArray [], rest')
          | _ =>
              match parseElements fuel' rest with
              | Some (vs, rest') => Some (JArray vs, rest')
              | None => None
              end
          end
      | String "{" rest =>
          match skipWs rest with
          | String "}" rest' => Some (JObject [], rest')
          | _ =>
              match parseMembers fuel' rest with
              | Some (ms, rest') => Some (JObject ms, rest')
              | None => None
              end
          end
      | s' => parseNumber s'
      end
  end
with parseElements (fuel : nat) (s : string) {struct fuel}
    : option (list json * string) :=
  match fuel with
  | O => None
  | S fuel' =>
      match parseValue fuel' s with
      | Some (v, rest) =>
          match skipWs rest with
          | String "," rest' =>
              match parseElements fuel' rest' with
              | Some (vs, rest'') => Some (v :: vs, rest'')
              | None => None
              end
          | String "]" rest' => Some ([v], rest')
          | _ => None
          end
      | None => None
      end
  end
with parseMembers (fuel : nat) (s : string) {struct fuel}
    : option (list (string * json) * string) :=
  match fuel with
  | O => None
  | S fuel' =>
      match skipWs s with
      | String "034" rest =>
          match parseChars rest with
          | Some (key, rest1) =>
              match skipWs rest1 with
              | String ":" rest2 =>
                  match parseValue fuel' rest2 with
                  | Some (v, rest3) =>
                      match skipWs rest3 with
                      | String "," rest4 =>
                          match parseMembers fuel' rest4 with
                          | Some (ms, rest5) => Some ((key, v) :: ms, rest5)
                          | None => None
                          end
                      | String "}" rest4 => Some ([(key, v)], rest4)
                      | _ => None
                      end
                  | None => None
                  end
              | _ => None
              end
          | None => None
          end
      | _ => None
      end
  end.

Definition parse (text : string) : completion json :=
  match parseValue (2 * String.length text + 2) text with
  | Some (v, rest) =>
      match skipWs rest with
      | EmptyString => Normal v
      | _ => Throw (mkError "SyntaxError: Unexpected token in JSON")
      end
  | None => Throw (mkError "SyntaxError: Unexpected token in JSON")
  end.

End JSON.

(** Node's [path.posix.join], on path segments: the arguments that are not
    empty are joined with a slash and the result is normalised. *)
Module Posix.

(** The segments of a path between its slashes. *)
Fixpoint split (s : string) : list string :=
  match s with
  | EmptyString => [EmptyString]
  | String c s' =>
      if Ascii.eqb c "/" then EmptyString :: split s'
      else
        match split s' with
        | seg :: segs => String c seg :: segs
        | [] => [String c EmptyString]
        end
  end.

(** One step of normalisation; [stack] holds the segments kept so far, the
    last one first. *)
Definition pushSegment (allowAboveRoot : bool) (stack : list string)
    (seg : string) : list string :=
  if String.eqb seg EmptyString || String.eqb seg "." then stack
  else if String.eqb seg ".." then
    match stack with
    | top :: stack' =>
        if String.eqb top ".." then seg :: stack else stack'
    | [] => if allowAboveRoot then [seg] else []
    end
  else seg :: stack.

Definition normalizeSegments (allowAboveRoot : bool) (segs : list string)
    : list string :=
  rev (fold_left (pushSegment allowAboveRoot) segs []).

Definition isAbsolute (path : string) : bool :=
  match path with String c _ => Ascii.eqb c "/" | EmptyString => false end.

Fixpoint endsWithSlash (path : string) : bool :=
  match path with
  | EmptyString => false
  | String c EmptyString => Ascii.eqb c "/"
  | String _ s' => endsWithSlash s'
  end.

Definition normalize (path : string) : string :=
  match path with
  | EmptyString => "."
  | _ =>
      let res := JS.join "/" (normalizeSegments (negb (isAbsolute path)) (split path)) in
      match res with
      | EmptyString =>
          if isAbsolute path then "/"
          else if endsWithSlash path then "./" else "."
      | _ =>
          (if isAbsolute path then "/" else EmptyString)
            +:+ res +:+ (if endsWithSlash path then "/" else EmptyString)
      end
  end.

Definition join (args : list string) : string :=
  match filter (fun arg => arg <> EmptyString) args with
  | [] => "."
  | parts => normalize (JS.join "/" parts)
  end.

End Posix.

(** common/utils and training_service/common/util on Linux: a line feed ends
    a line and a shell script is named [<prefix>.sh]. *)
Definition linux : Host := {|
  process_platform := "linux";
  path_join := Posix.join;
  JSON_parse := JSON.parse;
  getNewLine := String "010" EmptyString;
  getScriptName := fun fileNamePrefix => fileNamePrefix +:+ ".sh";
  TRIAL_CONFIG := "trial_config"
|}.

(** Node's [path.win32.join] on paths inside a drive: both separators are
    read, the backslash is written, and a leading drive letter is kept. *)
Module Win32.

Definition isSep (c : ascii) : bool := Ascii.eqb c "/" || Ascii.eqb c "\".

Fixpoint split (s : string) : list string :=
  match s with
  | EmptyString => [EmptyString]
  | String c s' =>
      if isSep c then EmptyString :: split s'
      else
        match split s' with
        | seg :: segs => String c seg :: segs
        | [] => [String c EmptyString]
        end
  end.

(** The drive prefix of a path, and the rest. *)
Definition device (path : string) : string * string :=
  match path with
  | String d (String ":" rest) => (String d ":", rest)
  | _ => (EmptyString, path)
  end.

Definition isAbsolute (tail : string) : bool :=
  match tail with String c _ => isSep c | EmptyString => false end.

Fixpoint endsWithSep (path : string) : bool :=
  match path with
  | EmptyString => false
  | String c EmptyString => isSep c
  | String _ s' => endsWithSep s'
  end.

Definition normalize (path : string) : string :=
  match path with
  | EmptyString => "."
  | _ =>
      let '(dev, rest) := device path in
      let res :=
        JS.join "\" (Posix.normalizeSegments (negb (isAbsolute rest)) (split rest)) in
      let tail :=
        match res with
        | EmptyString =>
            if isAbsolute rest then EmptyString
            else if endsWithSep rest then ".\"
            else match dev with EmptyString => "." | _ => EmptyString end
        | _ => res +:+ (if endsWithSep rest then "\" else EmptyString)
        end in
      dev +:+ (if isAbsolute rest then "\" else EmptyString) +:+ tail
  end.

Definition join (args : list string) : string :=
  match filter (fun arg => arg <> EmptyString) args with
  | [] => "."
  | parts => normalize (JS.join "\" parts)
  end.

End Win32.

(** common/utils and training_service/common/util on Windows: CR LF ends a
    line and a PowerShell script is named [<prefix>.ps1]. *)
Definition win32 : Host := {|
  process_platform := "win32";
  path_join := Win32.join;
  JSON_parse := JSON.parse;
  getNewLine := String "013" (String "010" EmptyString);
  getScriptName := fun fileNamePrefix => fileNamePrefix +:+ ".ps1";
  TRIAL_CONFIG := "trial_config"
|}.

(** ** Notions used to state the properties *)

(** The longest prefix of [s] made of characters in the class [p], and the
    rest of [s]. *)
Fixpoint span (p : ascii -> bool) (s : string) : string * string :=
  match s with
  | String c s' =>
      if p c then let '(pre, post) := span p s' in (String c pre, post)
      else (EmptyString, s)
  | EmptyString => (EmptyString, EmptyString)
  end.

(** Every character of [s] is in the class [p]. *)
Fixpoint allOf (p : ascii -> bool) (s : string) : bool :=
  match s with
  | String c s' => p c && allOf p s'
  | EmptyString => true
  end.

(** [s] does not start with a character of the class [p]. *)
Definition headNot (p : ascii -> bool) (s : string) : Prop :=
  match s with String c _ => p c = false | EmptyString => True end.

(** The shape [<optional minus><digits><white space><digits>] of an exit-code
    marker [t], with its four parts. *)
Definition returnCodeShape (t sign code gap stamp : string) : Prop :=
  t = sign +:+ code +:+ gap +:+ stamp /\
  (sign = EmptyString \/ sign = "-") /\
  allOf JS.isDigit code = true /\ code <> EmptyString /\
  allOf JS.isWhiteSpace gap = true /\ gap <> EmptyString /\
  allOf JS.isDigit stamp = true /\ stamp <> EmptyString.

(** The integer that a sign and a run of decimal digits denote. *)
Definition exitCodeOf (sign code : string) : Z :=
  if String.eqb sign "-" then - JS.digitsValue 0 code else JS.digitsValue 0 code.

(** The two digit groups of a marker of that shape, read off directly:
    an optional minus, then three maximal runs and nothing after them. *)
Definition returnCodeGroups (t : string) : option (string * string) :=
  let u := match t with String "-" t' => t' | _ => t end in
  let '(code, r1) := span JS.isDigit u in
  let '(gap, r2) := span JS.isWhiteSpace r1 in
  let '(stamp, r3) := span JS.isDigit r2 in
  match code, gap, stamp, r3 with
  | String _ _, String _ _, String _ _, EmptyString => Some (code, stamp)
  | _, _, _, _ => None
  end.

(** A world with nothing in it: no path exists, every read fails, no
    process is alive, and every other action succeeds. *)
Definition emptyWorld : World := {|
  existsSync := fun _ => false;
  readFile := fun path =>
    Throw (mkError ("ENOENT: no such file or directory, open '" +:+ path +:+ "'"));
  writeFile := fun _ _ _ => Normal tt;
  execMkdir := fun _ => Normal tt;
  execCopydir := fun _ _ => Normal tt;
  runScript := fun _ => Normal tt;
  isAlive := fun _ => Normal false
|}.

(** [withFile path content w]: [w] with a readable file at [path]. *)
Definition withFile (path content : string) (w : World) : World := {|
  existsSync := fun p => if String.eqb p path then true else existsSync w p;
  readFile := fun p => if String.eqb p path then Normal content else readFile w p;
  writeFile := writeFile w;
  execMkdir := execMkdir w;
  execCopydir := execCopydir w;
  runScript := runScript w;
  isAlive := isAlive w
|}.

(** [withDirectory path w]: [w] with a directory at [path]; it exists and
    cannot be read as a file. *)
Definition withDirectory (path : string) (w : World) : World := {|
  existsSync := fun p => if String.eqb p path then true else existsSync w p;
  readFile := fun p =>
    if String.eqb p path
    then Throw (mkError "EISDIR: illegal operation on a directory, read")
    else readFile w p;
  writeFile := writeFile w;
  execMkdir := execMkdir w;
  execCopydir := execCopydir w;
  runScript := runScript w;
  isAlive := isAlive w
|}.

(** [withProcess pid w]: [w] with a live process of that id. *)
Definition withProcess (pid : string) (w : World) : World := {|
  existsSync := existsSync w;
  readFile := readFile w;
  writeFile := writeFile w;
  execMkdir := execMkdir w;
  execCopydir := execCopydir w;
  runScript := runScript w;
  isAlive := fun p => if String.eqb p pid then Normal true else isAlive w p
|}.

(** The service as its constructor leaves it. *)
Definition newService (experimentId experimentRootDir : string) : Service :=
  mkService None experimentRootDir experimentId.

(** A record as the dispatcher hands it over: alive, waiting, nothing else
    set. *)
Definition newEnvironment (id : string) : Env.t :=
  Env.mk id WAITING EmptyString EmptyString EmptyString true.

(** *** Polls over time *)





(** *** Configuration *)

(** A caller that makes the [config] calls one after the other and goes on
    when one is rejected. *)
Fixpoint configureAll {host : Host} (calls : list (string * string)) (w : World)
    (st : State) : State :=
  match calls with
  | [] => st
  | (key, value) :: calls' => configureAll calls' w (config key value w st).2
  end.

(** The call stores a trial configuration: it has the key of one and a
    value that parses. *)
Definition storesTrialConfig {host : Host} (call : string * string) : bool :=
  String.eqb call.1 TRIAL_CONFIG &&
  match JSON_parse call.2 with Normal _ => true | Throw _ => false end.

(** The command of a trial configuration: the string member [command] of an
    object. *)
Fixpoint memberOf (key : string) (members : list (string * json)) : option json :=
  match members with
  | [] => None
  | (k, v) :: members' => if String.eqb k key then Some v else memberOf key members'
  end.

Definition trialCommand (cfg : json) : option string :=
  match cfg with
  | JObject members =>
      match memberOf "command" members with
      | Some (JString command) => Some command
      | _ => None
      end
  | _ => None
  end.

(** *** A concrete experiment

    Experiment [exp] under [/tmp/exp]; environment [a], as the record stands
    after it was started, at reference 0. *)

Definition envA : Env.t :=
  Env.with_runnerWorkingFolder "/tmp/exp/envs/a" (newEnvironment "a").

Definition experiment : State :=
  mkState (newService "exp" "/tmp/exp") {[ 0%nat := envA ]} [].

(** The runner of [a] wrote its pid 4242. *)
Definition started : World := withFile "/tmp/exp/envs/a/pid" "4242" emptyWorld.

(** The runner of [a] has exited with the given exit-code marker. *)
Definition finished (marker : string) : World :=
  withFile "/tmp/exp/envs/a/code" marker started.

(** A second environment [b], started too, at reference 1. *)
Definition envB : Env.t :=
  Env.with_runnerWorkingFolder "/tmp/exp/envs/b" (newEnvironment "b").

Definition experimentAB : State :=
  mkState (newService "exp" "/tmp/exp") (<[ 1%nat := envB ]> {[ 0%nat := envA ]}) [].

(** The pid marker of [a] is a directory; the runner of [b] wrote its pid
    4243 and has exited with code 0. *)
Definition brokenA_finishedB : World :=
  withDirectory "/tmp/exp/envs/a/pid"
    (withFile "/tmp/exp/envs/b/code" "0 1700000000123"
       (withFile "/tmp/exp/envs/b/pid" "4243" emptyWorld)).

(** *** Paths *)

Definition notSlash (c : ascii) : bool := negb (Ascii.eqb c "/").

(** A plain name: one path segment that names something below a folder. *)
Definition plainName (s : string) : bool :=
  negb (String.eqb s EmptyString) && negb (String.eqb s ".")
  && negb (String.eqb s "..") && allOf notSlash s.

(** The stack of normalisation, last segment first: plain names above the
    [..] segments that climb out of a relative path. *)
Definition stackOK (allow : bool) (stack : list string) : Prop :=
  exists k names,
    stack = names ++ replicate k ".." /\
    Forall (fun x => plainName x = true) names /\
    (allow = false -> k = 0%nat).



(** *** What a poll and a start come to

    Closed forms of the callback of a poll and of a start that passed its
    check; the lemmas below prove that the service computes them. *)

(** The pattern after its optional sign. *)
Definition unsignedPattern : JS.regex :=
  JS.Cat (JS.Grp 1 (JS.Plus (JS.Cls JS.isDigit)))
    (JS.Cat (JS.Plus (JS.Cls JS.isWhiteSpace))
       (JS.Cat (JS.Grp 2 (JS.Plus (JS.Cls JS.isDigit))) JS.Eol)).

Section ClosedForms.
Context {host : Host}.

Definition pidPathOf (folder : string) : string := path_join [folder; "pid"].
Definition codePathOf (folder : string) : string := path_join [folder; "code"].

(** The terminal status an exit-code marker stands for, if it has the
    shape of one. *)
Definition markerStatus (content : string) : option EnvironmentStatus :=
  match JS.match_ (JS.trim content) returnCodePattern with
  | Some groups =>
      if bool_decide (JS.parseInt10 (groups !!! 1%nat) = Some 0)
      then Some SUCCEEDED else Some FAILED
  | None => None
  end.

(** The status that the callback leaves in a record with working folder
    [folder] and status [s]. *)
Definition polledStatus (w : World) (folder : string) (s : EnvironmentStatus)
    : EnvironmentStatus :=
  if existsSync w (pidPathOf folder) then
    match readFile w (pidPathOf folder) with
    | Normal pid =>
        match isAlive w pid with
        | Normal true => RUNNING
        | Normal false =>
            if existsSync w (codePathOf folder) then
              match readFile w (codePathOf folder) with
              | Normal content => default RUNNING (markerStatus content)
              | Throw _ => RUNNING
              end
            else RUNNING
        | Throw _ => s
        end
    | Throw _ => s
    end
  else s.

Definition logged (e : Error) : Action :=
  LogError ("Update job status exception, error is " +:+ message e).

(** What the callback asks and logs. *)
Definition polledActions (w : World) (folder : string) : list Action :=
  FsExistsSync (pidPathOf folder) ::
  if existsSync w (pidPathOf folder) then
    FsReadFile (pidPathOf folder) ::
    match readFile w (pidPathOf folder) with
    | Normal pid =>
        IsAlive pid ::
        match isAlive w pid with
        | Normal true => []
        | Normal false =>
            FsExistsSync (codePathOf folder) ::
            if existsSync w (codePathOf folder) then
              FsReadFile (codePathOf folder) ::
              match readFile w (codePathOf folder) with
              | Normal _ => []
              | Throw e => [logged e]
              end
            else []
        | Throw e => [logged e]
        end
    | Throw e => [logged e]
    end
  else [].



End ClosedForms.

(** The actions of a start that passed the check, and how it completes:
    each action is performed if the ones before it succeeded. *)
Definition startOutcome (w : World) (folder tempFolder codeFolder scriptPath data : string)
    : completion unit * list Action :=
  match execMkdir w folder with
  | Throw err => (Throw err, [ExecMkdir folder])
  | Normal _ =>
      match execCopydir w tempFolder codeFolder with
      | Throw err => (Throw err, [ExecMkdir folder; ExecCopydir tempFolder codeFolder])
      | Normal _ =>
          match writeFile w scriptPath data 511 with
          | Throw err =>
              (Throw err, [ExecMkdir folder; ExecCopydir tempFolder codeFolder;
                           FsWriteFile scriptPath data 511])
          | Normal _ =>
              (runScript w scriptPath,
               [ExecMkdir folder; ExecCopydir tempFolder codeFolder;
                FsWriteFile scriptPath data 511; RunScript scriptPath])
          end
      end
  end.

(** The record after a start differs from the record before in its
    working folder, and at most in its command and tracking URL besides. *)
Definition startedFrom (folder : string) (e e' : Env.t) : Prop :=
  Env.id e' = Env.id e /\ Env.status e' = Env.status e /\
  Env.isAlive e' = Env.isAlive e /\ Env.runnerWorkingFolder e' = folder.


(** *** Further notions *)

(** An action that asks the world or writes to the log, and changes nothing
    outside: no file is written, no folder made or copied, no script run, no
    signal sent. *)
Definition isQuestion (a : Action) : bool :=
  match a with
  | FsExistsSync _ | FsReadFile _ | IsAlive _ | LogError _ | LogDebug _ => true
  | FsWriteFile _ _ _ | ExecMkdir _ | ExecCopydir _ _ | RunScript _ | Tkill _ _ => false
  end.

(** The debug line that [config] logs for a key it does not process. *)
Definition unprocessedKey (call : string * string) : Action :=
  LogDebug ("Local mode does not proccess metadata key: '" +:+ call.1
            +:+ "', value: '" +:+ call.2 +:+ "'").

(** The record of an environment after a start that passed the check, in
    the order of the assignments: the working folder first; the command once
    the folder is made and the code copied; the tracking URL once the script
    is written and run. *)
Definition startRecord (w : World) (folder tempFolder codeFolder scriptPath data : string)
    (e : Env.t) : Env.t :=
  let e1 := Env.with_runnerWorkingFolder folder e in
  match execMkdir w folder, execCopydir w tempFolder codeFolder with
  | Normal _, Normal _ =>
      let e2 := Env.with_command data e1 in
      match writeFile w scriptPath data 511, runScript w scriptPath with
      | Normal _, Normal _ => Env.with_trackingUrl folder e2
      | _, _ => e2
      end
  | _, _ => e1
  end.

(** The experiment once a trial configuration is stored. *)
Definition configured : State :=
  mkState (with_localTrialConfig (Some JNull) (this experiment))
    (heap experiment) (trace experiment).

(** A world in which no folder can be made. *)
Definition readOnlyDisk : World := {|
  existsSync := existsSync emptyWorld;
  readFile := readFile emptyWorld;
  writeFile := writeFile emptyWorld;
  execMkdir := fun path => Throw (mkError ("EROFS: read-only file system, mkdir '"
                                            +:+ path +:+ "'"));
  execCopydir := execCopydir emptyWorld;
  runScript := runScript emptyWorld;
  isAlive := isAlive emptyWorld
|}.

(** * Properties *)

(** ** Strings *)

Lemma append_cons (c : ascii) (s t : string) : String c s +:+ t = String c (s +:+ t).
Proof. reflexivity. Qed.

Lemma append_empty_l (s : string) : EmptyString +:+ s = s.
Proof. reflexivity. Qed.

Lemma append_empty_r (s : string) : s +:+ EmptyString = s.
Proof. induction s as [|c s IH]; [done|]. by rewrite append_cons, IH. Qed.

Lemma append_assoc (s t u : string) : (s +:+ t) +:+ u = s +:+ t +:+ u.
Proof. induction s as [|c s IH]; [done|]. by rewrite !append_cons, IH. Qed.

Lemma length_append (s t : string) :
  String.length (s +:+ t) = (String.length s + String.length t)%nat.
Proof. induction s as [|c s IH]; [done|]. rewrite append_cons. simpl. by rewrite IH. Qed.

Lemma span_append p s : (span p s).1 +:+ (span p s).2 = s.
Proof.
  induction s as [|c s IH]; simpl; [done|].
  destruct (p c); [|done].
  destruct (span p s) as [pre post]; simpl in *. by rewrite append_cons, IH.
Qed.

Lemma span_allOf p s : allOf p (span p s).1 = true.
Proof.
  induction s as [|c s IH]; simpl; [done|].
  destruct (p c) eqn:Hc; [|done].
  destruct (span p s) as [pre post]; simpl in *. by rewrite Hc.
Qed.

Lemma span_unique p pre post :
  allOf p pre = true -> headNot p post -> span p (pre +:+ post) = (pre, post).
Proof.
  intros Hpre Hpost. induction pre as [|c pre IH]; simpl in *.
  - destruct post as [|c post]; simpl in *; [done|]. by rewrite Hpost.
  - apply andb_prop in Hpre as [Hc Hpre]. rewrite Hc, IH; done.
Qed.

Lemma substring_prefix (s t : string) : substring 0 (String.length s) (s +:+ t) = s.
Proof.
  induction s as [|c s IH].
  - by destruct t.
  - rewrite append_cons. simpl. by rewrite IH.
Qed.

Lemma consumed_append (s t : string) : JS.consumed (s +:+ t) t = s.
Proof.
  unfold JS.consumed. rewrite length_append.
  replace (String.length s + String.length t - String.length t)%nat
    with (String.length s) by lia.
  apply substring_prefix.
Qed.

(** ** The pattern matcher *)

(** A greedy run over a class whose continuation cannot start inside the
    class takes the longest run or fails: backtracking to a shorter run leaves
    a character of the class in front of the continuation. *)
Lemma iterate_class whole p k :
  (forall c rest caps, p c = true -> k (String c rest) caps = None) ->
  forall s fuel caps, (String.length s <= fuel)%nat ->
    JS.iterate (JS.exec whole (JS.Cls p)) k fuel s caps =
      match (span p s).1 with
      | EmptyString => None
      | _ => k (span p s).2 caps
      end.
Proof.
  intros Hk s. induction s as [|c s IH]; intros fuel caps Hfuel.
  - by destruct fuel.
  - destruct fuel as [|fuel]; simpl in Hfuel; [lia|].
    simpl. destruct (p c) eqn:Hc; [|done].
    rewrite IH by lia.
    destruct (span p s) as [pre post] eqn:Hspan; simpl.
    destruct pre as [|c' pre].
    + assert (post = s) as ->; [|done].
      pose proof (span_append p s) as Happ. by rewrite Hspan in Happ.
    + destruct (k post caps) eqn:Hpost; [done|].
      pose proof (span_append p s) as Happ. rewrite Hspan in Happ. simpl in Happ.
      pose proof (span_allOf p s) as Hall. rewrite Hspan in Hall. simpl in Hall.
      apply andb_prop in Hall as [Hc' _].
      rewrite <- Happ. by apply Hk.
Qed.

Lemma search_bol whole r s :
  (String.length s < String.length whole)%nat ->
  JS.search whole (JS.Cat JS.Bol r) s = None.
Proof.
  induction s as [|c s IH]; intros Hlen; cbn [JS.search JS.exec].
  - destruct (Nat.eqb_spec (String.length EmptyString) (String.length whole)) as [E|];
      [simpl in *; lia|done].
  - destruct (Nat.eqb_spec (String.length (String c s)) (String.length whole)) as [E|];
      [lia|].
    apply IH. simpl in Hlen. lia.
Qed.

(** A pattern anchored at the start is only tried at the start. *)
Lemma match_bol t r :
  JS.match_ t (JS.Cat JS.Bol r) = JS.exec t r t ∅ (fun _ caps => Some caps).
Proof.
  unfold JS.match_. destruct t as [|c t]; cbn [JS.search JS.exec];
    rewrite Nat.eqb_refl.
  - by destruct (JS.exec _ r _ _ _).
  - destruct (JS.exec _ r _ _ _); [done|].
    apply search_bol. simpl. lia.
Qed.

Lemma digit_not_space c : JS.isDigit c = true -> JS.isWhiteSpace c = false.
Proof.
  unfold JS.isDigit, JS.isWhiteSpace. generalize (nat_of_ascii c). intros n H.
  apply andb_prop in H as [H1 H2].
  apply Nat.leb_le in H1. apply Nat.leb_le in H2.
  destruct (Nat.leb_spec n 13); destruct (Nat.eqb_spec n 32);
    destruct (Nat.eqb_spec n 160); lia.
Qed.

Lemma space_not_digit c : JS.isWhiteSpace c = true -> JS.isDigit c = false.
Proof.
  intros H. destruct (JS.isDigit c) eqn:Hd; [|done].
  apply digit_not_space in Hd. congruence.
Qed.

Lemma exec_Cat whole r1 r2 s caps k :
  JS.exec whole (JS.Cat r1 r2) s caps k =
    JS.exec whole r1 s caps (fun s' caps' => JS.exec whole r2 s' caps' k).
Proof. reflexivity. Qed.

Lemma exec_Grp whole n r s caps k :
  JS.exec whole (JS.Grp n r) s caps k =
    JS.exec whole r s caps (fun s' caps' => k s' (<[n := JS.consumed s s']> caps')).
Proof. reflexivity. Qed.

Lemma exec_Plus whole r s caps k :
  JS.exec whole (JS.Plus r) s caps k =
    JS.iterate (JS.exec whole r) k (String.length s) s caps.
Proof. reflexivity. Qed.

Lemma exec_Plus_Cls_cons whole p c s caps k :
  p c = false -> JS.exec whole (JS.Plus (JS.Cls p)) (String c s) caps k = None.
Proof. intros Hc. rewrite exec_Plus. simpl. by rewrite Hc. Qed.

Lemma exec_unsignedPattern whole u caps :
  JS.exec whole unsignedPattern u caps (fun _ caps' => Some caps') =
    let '(code, r1) := span JS.isDigit u in
    let '(gap, r2) := span JS.isWhiteSpace r1 in
    let '(stamp, r3) := span JS.isDigit r2 in
    match code, gap, stamp, r3 with
    | String _ _, String _ _, String _ _, EmptyString =>
        Some (<[2%nat := stamp]> (<[1%nat := code]> caps))
    | _, _, _, _ => None
    end.
Proof.
  unfold unsignedPattern.
  rewrite exec_Cat, exec_Grp, exec_Plus, iterate_class; [| |lia].
  2:{ intros c rest caps' Hc. rewrite exec_Cat.
      apply exec_Plus_Cls_cons, digit_not_space, Hc. }
  pose proof (span_append JS.isDigit u) as Hu.
  destruct (span JS.isDigit u) as [code r1]; simpl in Hu.
  cbn [fst snd]. destruct code as [|c0 code]; [by repeat case_match|].
  rewrite exec_Cat, exec_Plus, iterate_class; [| |lia].
  2:{ intros c rest caps' Hc. rewrite exec_Cat, exec_Grp.
      apply exec_Plus_Cls_cons, space_not_digit, Hc. }
  pose proof (span_append JS.isWhiteSpace r1) as Hr1.
  destruct (span JS.isWhiteSpace r1) as [gap r2]; simpl in Hr1.
  cbn [fst snd]. destruct gap as [|c1 gap]; [by repeat case_match|].
  rewrite exec_Cat, exec_Grp, exec_Plus, iterate_class; [| |lia].
  2:{ intros c rest caps' Hc. done. }
  pose proof (span_append JS.isDigit r2) as Hr2.
  destruct (span JS.isDigit r2) as [stamp r3]; simpl in Hr2.
  cbn [fst snd]. destruct stamp as [|c2 stamp]; [done|].
  destruct r3 as [|c3 r3]; [|done].
  cbn [JS.exec].
  rewrite <- Hu at 1. rewrite consumed_append.
  rewrite <- Hr2 at 1. rewrite consumed_append. done.
Qed.

Lemma exec_Opt_Chr whole c s caps k :
  JS.exec whole (JS.Opt (JS.Chr c)) s caps k =
    match s with
    | String x s' =>
        if Ascii.eqb x c
        then match k s' caps with Some r => Some r | None => k s caps end
        else k s caps
    | EmptyString => k s caps
    end.
Proof. destruct s as [|x s]; [done|]. simpl. by destruct (Ascii.eqb x c). Qed.

Lemma returnCodeGroups_unsigned whole u :
  JS.exec whole unsignedPattern u ∅ (fun _ caps' => Some caps') =
    (fun g => <[2%nat := g.2]> (<[1%nat := g.1]> ∅)) <$>
      (let '(code, r1) := span JS.isDigit u in
       let '(gap, r2) := span JS.isWhiteSpace r1 in
       let '(stamp, r3) := span JS.isDigit r2 in
       match code, gap, stamp, r3 with
       | String _ _, String _ _, String _ _, EmptyString => Some (code, stamp)
       | _, _, _, _ => None
       end).
Proof.
  rewrite exec_unsignedPattern.
  destruct (span JS.isDigit u) as [code r1].
  destruct (span JS.isWhiteSpace r1) as [gap r2].
  destruct (span JS.isDigit r2) as [stamp r3].
  destruct code, gap, stamp, r3; done.
Qed.

(** What [match] with the exit-code pattern returns. *)
Lemma match_returnCodePattern t :
  JS.match_ t returnCodePattern =
    (fun g => <[2%nat := g.2]> (<[1%nat := g.1]> ∅)) <$> returnCodeGroups t.
Proof.
  unfold returnCodePattern. rewrite match_bol.
  change (JS.Cat (JS.Opt (JS.Chr "-")) _)
    with (JS.Cat (JS.Opt (JS.Chr "-")) unsignedPattern).
  rewrite exec_Cat, exec_Opt_Chr. unfold returnCodeGroups.
  destruct t as [|c t]; [apply returnCodeGroups_unsigned|].
  destruct (Ascii.eqb_spec c "-") as [->|Hc].
  - rewrite returnCodeGroups_unsigned.
    match goal with |- context [_ <$> ?x] => destruct x as [g|] eqn:Hg end; [done|].
    cbn [fmap option_fmap option_map]. by rewrite exec_unsignedPattern.
  - rewrite returnCodeGroups_unsigned.
    destruct c as [[] [] [] [] [] [] [] []]; done.
Qed.

Lemma allOf_head p c s : allOf p (String c s) = true -> p c = true.
Proof. simpl. by intros [? _]%andb_prop. Qed.

Lemma headNot_append p q (s t : string) :
  (forall c, q c = true -> p c = false) ->
  allOf q s = true -> s <> EmptyString -> headNot p (s +:+ t).
Proof.
  intros Hpq Hall Hne. destruct s as [|c s]; [done|].
  rewrite append_cons. simpl. apply Hpq. by apply allOf_head in Hall.
Qed.

(** The direct reading finds exactly the markers of the stated shape. *)
Lemma returnCodeGroups_shape t code stamp :
  returnCodeGroups t = Some (code, stamp) <->
  exists sign gap, returnCodeShape t sign code gap stamp.
Proof.
  unfold returnCodeGroups, returnCodeShape. split.
  - set (u := match t with String "-" t' => t' | _ => t end).
    assert (Ht : exists sign, t = sign +:+ u /\ (sign = EmptyString \/ sign = "-")).
    { subst u. destruct t as [|c t]; [by exists EmptyString; auto|].
      destruct (Ascii.eqb_spec c "-") as [->|Hc]; [by exists "-"; auto|].
      exists EmptyString. split; [|by auto].
      destruct c as [[] [] [] [] [] [] [] []]; done. }
    clearbody u. destruct Ht as (sign & -> & Hsign).
    pose proof (span_append JS.isDigit u) as Hu.
    pose proof (span_allOf JS.isDigit u) as Hcode.
    destruct (span JS.isDigit u) as [code' r1]; simpl in Hu, Hcode.
    pose proof (span_append JS.isWhiteSpace r1) as Hr1.
    pose proof (span_allOf JS.isWhiteSpace r1) as Hgap.
    destruct (span JS.isWhiteSpace r1) as [gap r2]; simpl in Hr1, Hgap.
    pose proof (span_append JS.isDigit r2) as Hr2.
    pose proof (span_allOf JS.isDigit r2) as Hstamp.
    destruct (span JS.isDigit r2) as [stamp' r3]; simpl in Hr2, Hstamp.
    destruct code' as [|c0 code']; [done|]. destruct gap as [|c1 gap]; [done|].
    destruct stamp' as [|c2 stamp']; [done|]. destruct r3 as [|c3 r3]; [|done].
    intros [= <- <-]. exists sign, (String c1 gap).
    rewrite append_empty_r in Hr2. subst r2 r1 u. done.
  - intros (sign & gap & -> & Hsign & Hcode & Hcode0 & Hgap & Hgap0 & Hstamp & Hstamp0).
    assert (Hu : match sign +:+ code +:+ gap +:+ stamp with
                 | String "-" t' => t'
                 | _ => sign +:+ code +:+ gap +:+ stamp
                 end = code +:+ gap +:+ stamp).
    { destruct Hsign as [-> | ->]; [|done].
      rewrite append_empty_l. destruct code as [|c code]; [done|].
      apply allOf_head in Hcode. rewrite append_cons.
      destruct c as [[] [] [] [] [] [] [] []]; done. }
    rewrite Hu.
    rewrite (span_unique JS.isDigit code (gap +:+ stamp)); [|done|].
    2:{ eapply headNot_append; [apply space_not_digit|done..]. }
    rewrite (span_unique JS.isWhiteSpace gap stamp); [|done|].
    2:{ rewrite <- (append_empty_r stamp).
        eapply headNot_append; [apply digit_not_space|done..]. }
    rewrite <- (append_empty_r stamp) at 1.
    rewrite (span_unique JS.isDigit stamp EmptyString); [|done..].
    destruct code, gap, stamp; done.
Qed.

Lemma parseInt10_digits code :
  allOf JS.isDigit code = true -> code <> EmptyString ->
  JS.parseInt10 code = Some (JS.digitsValue 0 code).
Proof.
  intros Hall Hne. destruct code as [|c code]; [done|].
  apply allOf_head in Hall. unfold JS.parseInt10.
  cbn [JS.trimStart]. rewrite (digit_not_space c Hall).
  destruct c as [[] [] [] [] [] [] [] []]; try discriminate Hall; reflexivity.
Qed.

(** ** The heap of environment records *)

Lemma with_status_same (e : Env.t) : Env.with_status (Env.status e) e = e.
Proof. by destruct e. Qed.

Lemma alter_present (f : Env.t -> Env.t) (r : nat) (h : gmap nat Env.t) (e : Env.t) :
  h !! r = Some e -> alter f r h = <[r := f e]> h.
Proof.
  intros Hr. apply map_eq. intros i. rewrite lookup_alter, lookup_insert.
  destruct (decide (r = i)) as [<-|]; by rewrite ?Hr.
Qed.

(** ** Running a computation step by step *)

Lemma run_bind_getThis {A B} (f : Service -> A) (k : A -> M B) w st :
  (getThis f ≫= k) w st = k (f (this st)) w st.
Proof. reflexivity. Qed.

Lemma run_bind_get {A B} (r : nat) (f : Env.t -> A) (k : A -> M B) w st :
  (get r f ≫= k) w st = k (f (heap st !!! r)) w st.
Proof. reflexivity. Qed.

Lemma run_bind_set {B} (r : nat) (f : Env.t -> Env.t) (k : unit -> M B) w st :
  (set r f ≫= k) w st = k tt w (mkState (this st) (alter f r (heap st)) (trace st)).
Proof. reflexivity. Qed.

Lemma run_bind_ret {A B} (a : A) (k : A -> M B) w st : (mret a ≫= k) w st = k a w st.
Proof. reflexivity. Qed.

Lemma run_bind_ask {A B} (a : Action) (answer : World -> completion A)
    (k : A -> M B) w st :
  (ask a answer ≫= k) w st =
    match answer w with
    | Normal x => k x w (mkState (this st) (heap st) (trace st ++ [a]))
    | Throw err => (Throw err, mkState (this st) (heap st) (trace st ++ [a]))
    end.
Proof. unfold mbind, M_bind, ask. by destruct (answer w). Qed.

Lemma run_bind_bind {A B C} (m : M A) (f : A -> M B) (k : B -> M C) w st :
  ((m ≫= f) ≫= k) w st = (m ≫= (fun a => f a ≫= k)) w st.
Proof. unfold mbind, M_bind. by destruct (m w st) as [[a|err] st']. Qed.

Ltac run_step :=
  first [ rewrite run_bind_getThis | rewrite run_bind_get | rewrite run_bind_set
        | rewrite run_bind_ret | rewrite run_bind_bind ].

(** Projections of a state that is given by its fields. *)
Ltac state_simpl := cbn [this heap trace negb fst snd default from_option id].

(** ** One poll of one environment *)

Section Poll.
Context {host : Host}.

Lemma refreshEnvironmentStatus_eq r w st e :
  heap st !! r = Some e ->
  refreshEnvironmentStatus r w st =
    (Normal tt,
     mkState (this st)
       (<[r := Env.with_status
                 (polledStatus w (Env.runnerWorkingFolder e) (Env.status e)) e]>
          (heap st))
       (trace st ++ polledActions w (Env.runnerWorkingFolder e))).
Proof.
  intros Hr. destruct st as [svc h tr]. simpl in Hr.
  unfold refreshEnvironmentStatus, checkStatus, polledStatus, polledActions,
    markerStatus, setStatus, try_catch, mbind, M_bind, mret, M_ret, get, set,
    fs_existsSync, fs_promises_readFile, utils_isAlive, log_error, ask, perform,
    logged, pidPathOf, codePathOf.
  cbn [this heap trace].
  rewrite (lookup_total_correct _ _ _ Hr).
  set (folder := Env.runnerWorkingFolder e).
  assert (Hsame : <[r := Env.with_status (Env.status e) e]> h = h).
  { rewrite with_status_same. by apply insert_id. }
  destruct (existsSync w (path_join [folder; "pid"])); state_simpl;
    [|by rewrite Hsame].
  destruct (readFile w (path_join [folder; "pid"])) as [pid|err]; state_simpl;
    [|by rewrite Hsame, <- !app_assoc].
  destruct (isAlive w pid) as [[]|err]; state_simpl;
    [| |by rewrite Hsame, <- !app_assoc].
  { by rewrite (alter_present _ _ _ _ Hr), <- !app_assoc. }
  rewrite (alter_present _ _ _ _ Hr).
  destruct (existsSync w (path_join [folder; "code"])); state_simpl;
    [|by rewrite <- !app_assoc].
  destruct (readFile w (path_join [folder; "code"])) as [content|err]; state_simpl;
    [|by rewrite <- !app_assoc].
  destruct (JS.match_ (JS.trim content) returnCodePattern) as [groups|];
    state_simpl; [|by rewrite <- !app_assoc].
  destruct (bool_decide _); state_simpl;
    (erewrite alter_present by apply lookup_insert_eq);
    by rewrite insert_insert_eq, <- !app_assoc.
Qed.

(** The callback writes to no record but its own, and makes none. *)
Lemma refreshEnvironmentStatus_alter r w st :
  exists f, heap (refreshEnvironmentStatus r w st).2 = alter f r (heap st).
Proof.
  destruct (heap st !! r) as [e|] eqn:Hr.
  - rewrite (refreshEnvironmentStatus_eq r w st e Hr). state_simpl.
    eexists (fun _ => _). by rewrite (alter_present _ _ _ _ Hr).
  - exists (fun e => e).
    assert (Hno : forall g, alter g r (heap st) = heap st).
    { intros g. apply map_eq. intros i. rewrite lookup_alter.
      case_decide; [subst; by rewrite Hr|done]. }
    rewrite Hno.
    unfold refreshEnvironmentStatus, checkStatus, setStatus, try_catch, mbind,
      M_bind, mret, M_ret, get, set, fs_existsSync, fs_promises_readFile,
      utils_isAlive, log_error, ask, perform.
    repeat (case_match; simplify_eq/=; rewrite ?Hno); done.
Qed.

Lemma refreshEnvironmentStatus_frame r r' w st :
  r <> r' -> heap (refreshEnvironmentStatus r w st).2 !! r' = heap st !! r'.
Proof.
  intros Hne. destruct (refreshEnvironmentStatus_alter r w st) as [f ->].
  by rewrite lookup_alter_ne.
Qed.

(** Polling twice in the same world is polling once. *)
Lemma polledStatus_idem w folder s :
  polledStatus w folder (polledStatus w folder s) = polledStatus w folder s.
Proof. unfold polledStatus. repeat case_match; done. Qed.

(** *** A batch *)

Lemma forEach_async_app {A} (callback : A -> M unit) (l1 l2 : list A) w st :
  forEach_async callback (l1 ++ l2) w st =
    forEach_async callback l2 w (forEach_async callback l1 w st).2.
Proof. revert st. induction l1 as [|x l1 IH]; intros st; [done|]. apply IH. Qed.

Lemma forEach_async_normal {A} (callback : A -> M unit) (l : list A) w st :
  (forEach_async callback l w st).1 = Normal tt.
Proof. revert st. induction l as [|x l IH]; intros st; [done|]. apply IH. Qed.

Lemma refreshEnvironmentsStatus_lookup l w st r e :
  heap st !! r = Some e ->
  heap (refreshEnvironmentsStatus l w st).2 !! r =
    Some (Env.with_status
            (if bool_decide (r ∈ l)
             then polledStatus w (Env.runnerWorkingFolder e) (Env.status e)
             else Env.status e) e).
Proof.
  unfold refreshEnvironmentsStatus. revert st e.
  induction l as [|x l IH]; intros st e Hr.
  - simpl. by rewrite with_status_same.
  - cbn [forEach_async]. destruct (decide (x = r)) as [->|Hne].
    + rewrite bool_decide_eq_true_2 by left.
      erewrite IH.
      2:{ rewrite (refreshEnvironmentStatus_eq r w st e Hr). state_simpl.
          apply lookup_insert_eq. }
      cbn [Env.runnerWorkingFolder Env.status Env.with_status].
      destruct (bool_decide (r ∈ l)); [|done].
      by rewrite polledStatus_idem.
    + erewrite IH by (by rewrite refreshEnvironmentStatus_frame).
      assert (r ∈ x :: l <-> r ∈ l) as Hiff.
      { split; [intros [?|?]%elem_of_cons; [congruence|done]|].
        intros. apply elem_of_cons. by right. }
      by rewrite (bool_decide_ext _ _ Hiff).
Qed.

Lemma refreshEnvironmentsStatus_absent l w st r :
  heap st !! r = None -> heap (refreshEnvironmentsStatus l w st).2 !! r = None.
Proof.
  unfold refreshEnvironmentsStatus. revert st.
  induction l as [|x l IH]; intros st Hr; [done|].
  cbn [forEach_async]. apply IH.
  destruct (refreshEnvironmentStatus_alter x w st) as [f ->].
  rewrite lookup_alter. case_decide; [subst; by rewrite Hr|done].
Qed.

(** In one snapshot of the world, the records after a poll depend on which
    environments the batch holds, not on their order or on repetitions: the
    order in which the callbacks are run is immaterial to them. *)
Lemma refreshEnvironmentsStatus_order l l' w st :
  (forall r, r ∈ l <-> r ∈ l') ->
  heap (refreshEnvironmentsStatus l w st).2 = heap (refreshEnvironmentsStatus l' w st).2.
Proof.
  intros Hsame. apply map_eq. intros r.
  destruct (heap st !! r) as [e|] eqn:Hr.
  - rewrite !(refreshEnvironmentsStatus_lookup _ _ _ _ _ Hr).
    by rewrite (bool_decide_ext _ _ (Hsame r)).
  - by rewrite !refreshEnvironmentsStatus_absent.
Qed.

End Poll.

(** ** The status poller *)

(** C9: a poll leaves the status of every environment without a pid marker at
    its prior value, whatever the batch holds; the callback for such an
    environment completes normally after asking once whether the marker
    exists, and logs nothing. *)
Theorem poll_without_pid_marker {host : Host} (w : World) (st : State)
    (environments : list nat) (r : nat) (e : Env.t) :
  heap st !! r = Some e ->
  existsSync w (path_join [Env.runnerWorkingFolder e; "pid"]) = false ->
  heap (refreshEnvironmentsStatus environments w st).2 !! r = Some e /\
  (refreshEnvironmentsStatus environments w st).1 = Normal tt /\
  refreshEnvironmentStatus r w st =
    (Normal tt,
     mkState (this st) (heap st)
       (trace st ++ [FsExistsSync (path_join [Env.runnerWorkingFolder e; "pid"])])).
Proof.
  intros Hr Hpid. split; [|split].
  - rewrite (refreshEnvironmentsStatus_lookup _ _ _ _ _ Hr).
    unfold polledStatus, pidPathOf. rewrite Hpid.
    destruct (bool_decide _); by rewrite with_status_same.
  - apply forEach_async_normal.
  - rewrite (refreshEnvironmentStatus_eq _ _ _ _ Hr).
    unfold polledStatus, polledActions, pidPathOf. rewrite Hpid.
    rewrite with_status_same. by rewrite insert_id.
Qed.

Lemma poll_without_pid_marker_witness :
  heap (refreshEnvironmentsStatus (host := linux) [0%nat] emptyWorld experiment).2
    !! 0%nat
  = Some envA.
Proof.
  apply (poll_without_pid_marker (host := linux) emptyWorld experiment [0%nat] 0%nat
           envA); reflexivity.
Defined.

Lemma markerStatus_shape content sign code gap stamp :
  returnCodeShape (JS.trim content) sign code gap stamp ->
  markerStatus content =
    Some (if bool_decide (exitCodeOf sign code = 0) then SUCCEEDED else FAILED).
Proof.
  intros Hshape. unfold markerStatus. rewrite match_returnCodePattern.
  assert (Hg : returnCodeGroups (JS.trim content) = Some (code, stamp))
    by (apply returnCodeGroups_shape; eauto).
  rewrite Hg. cbn [fmap option_fmap option_map fst snd].
  rewrite lookup_total_insert_ne by done. rewrite lookup_total_insert_eq.
  destruct Hshape as (_ & Hsign & Hcode & Hcode0 & _).
  rewrite (parseInt10_digits code Hcode Hcode0).
  assert (Hz : exitCodeOf sign code = 0 <-> Some (JS.digitsValue 0 code) = Some 0).
  { unfold exitCodeOf. destruct Hsign as [-> | ->]; simpl; split.
    - by intros ->.
    - by intros [= ->].
    - intros Hz. f_equal. lia.
    - intros [= ->]. done. }
  rewrite (bool_decide_ext _ _ Hz). by destruct (bool_decide _).
Qed.




(** The same with the marker of a failed run, and with a marker that has
    not the shape. *)
Example exit_code_2_fails :
  Env.status <$>
    heap (refreshEnvironmentsStatus (host := linux) [0%nat]
            (finished "2 1700000000123") experiment).2 !! 0%nat
  = Some FAILED.
Proof. reflexivity. Qed.

Example exit_code_plus_sign_is_no_marker :
  Env.status <$>
    heap (refreshEnvironmentsStatus (host := linux) [0%nat]
            (finished "+0 1700000000123") experiment).2 !! 0%nat
  = Some RUNNING.
Proof. reflexivity. Qed.

(** C7, as stated, fails where the exception comes from reading the
    exit-code marker: the pid marker of a dead process is read, the
    exit-code marker exists but is a directory, and the record that was
    WAITING is left RUNNING. *)
Lemma poll_exception_after_running :
  (checkStatus 0%nat "/tmp/exp/envs/a/pid" "/tmp/exp/envs/a/code"
     (withDirectory "/tmp/exp/envs/a/code" started) experiment).1
    = Throw (mkError "EISDIR: illegal operation on a directory, read")
  /\
  Env.status <$> heap experiment !! 0%nat = Some WAITING
  /\
  Env.status <$>
    heap (refreshEnvironmentsStatus (host := linux) [0%nat]
            (withDirectory "/tmp/exp/envs/a/code" started) experiment).2 !! 0%nat
    = Some RUNNING.
Proof. repeat split; reflexivity. Qed.

(** C7, amended: an exception raised while one environment is checked is
    caught and logged; it leaves the status unchanged when it comes from
    reading the pid marker or from the liveness check, and at RUNNING when it
    comes from reading the exit-code marker; the environments after it in
    the batch are evaluated as a batch of their own; and the batch call
    completes normally. *)
Theorem poll_exception_contained {host : Host} (w : World) (st0 : State)
    (before rest : list nat) (r : nat) (e : Env.t) (err : Error) (st1 : State) :
  let st := (refreshEnvironmentsStatus before w st0).2 in
  let pidPath := path_join [Env.runnerWorkingFolder e; "pid"] in
  let codePath := path_join [Env.runnerWorkingFolder e; "code"] in
  let logged1 :=
    mkState (this st1) (heap st1)
      (trace st1 ++
         [LogError ("Update job status exception, error is " +:+ message err)]) in
  heap st !! r = Some e ->
  checkStatus r pidPath codePath w st = (Throw err, st1) ->
  refreshEnvironmentStatus r w st = (Normal tt, logged1) /\
  ((heap st1 = heap st /\
      (readFile w pidPath = Throw err \/
       exists pid, readFile w pidPath = Normal pid /\ isAlive w pid = Throw err))
   \/
   (heap st1 = <[r := Env.with_status RUNNING e]> (heap st) /\
      readFile w codePath = Throw err)) /\
  refreshEnvironmentsStatus (before ++ r :: rest) w st0 =
    refreshEnvironmentsStatus rest w logged1 /\
  (refreshEnvironmentsStatus (before ++ r :: rest) w st0).1 = Normal tt.
Proof.
  intros st pidPath codePath logged1 Hr Hcheck.
  assert (Hcb : refreshEnvironmentStatus r w st = (Normal tt, logged1)).
  { unfold refreshEnvironmentStatus, get, mbind, M_bind, try_catch.
    rewrite (lookup_total_correct _ _ _ Hr).
    fold pidPath codePath. rewrite Hcheck. done. }
  split; [done|]. split; [|split].
  - revert Hcheck.
    unfold checkStatus, setStatus, mbind, M_bind, mret, M_ret, set,
      fs_existsSync, fs_promises_readFile, utils_isAlive, ask, perform.
    destruct (existsSync w pidPath); state_simpl; [|done].
    destruct (readFile w pidPath) as [pid|err1]; state_simpl;
      [|intros [= <- <-]; left; by auto].
    destruct (isAlive w pid) as [[]|err1] eqn:Halive; state_simpl;
      [done| |intros [= <- <-]; left; by eauto].
    destruct (existsSync w codePath); state_simpl; [|done].
    destruct (readFile w codePath) as [content|err1]; state_simpl.
    + by repeat case_match.
    + intros [= <- <-]. right. state_simpl.
      by rewrite (alter_present _ _ _ _ Hr).
  - unfold refreshEnvironmentsStatus. rewrite forEach_async_app.
    cbn [forEach_async]. fold (refreshEnvironmentsStatus before w st0). fold st.
    by rewrite Hcb.
  - apply forEach_async_normal.
Qed.

Lemma poll_exception_contained_witness :
  Env.status <$>
    heap (refreshEnvironmentsStatus (host := linux) [0%nat; 1%nat]
            brokenA_finishedB experimentAB).2 !! 1%nat
  = Some SUCCEEDED.
Proof.
  pose proof (poll_exception_contained (host := linux) brokenA_finishedB experimentAB
    [] [1%nat] 0%nat envA
    (mkError "EISDIR: illegal operation on a directory, read") _
    eq_refl eq_refl) as (_ & _ & Hrest & _).
  cbn [app] in Hrest. rewrite Hrest. reflexivity.
Defined.

(** ** Polls over time *)

Section Sequence.
Context {host : Host}.










End Sequence.




(** ** Configuration and start *)

Section Start.
Context {host : Host}.

Lemma config_not_stored call w st :
  storesTrialConfig call = false ->
  localTrialConfig (this (config call.1 call.2 w st).2) = localTrialConfig (this st).
Proof.
  unfold storesTrialConfig, config, JSON_parse_, setThis, log_debug, perform,
    mbind, M_bind.
  destruct (String.eqb call.1 TRIAL_CONFIG); [|done].
  by destruct (JSON_parse call.2).
Qed.

Lemma configureAll_not_stored calls w st :
  forallb (fun call => negb (storesTrialConfig call)) calls = true ->
  localTrialConfig (this (configureAll calls w st)) = localTrialConfig (this st).
Proof.
  revert st. induction calls as [|[key value] calls IH]; intros st Hcalls; [done|].
  simpl in Hcalls. apply andb_prop in Hcalls as [Hcall Hcalls].
  cbn [configureAll]. rewrite IH by done.
  apply (config_not_stored (key, value)). by destruct (storesTrialConfig _).
Qed.

Lemma startEnvironment_unconfigured r w st :
  localTrialConfig (this st) = None ->
  startEnvironment r w st =
    (Throw (mkError "Local trial config is not initialized"), st).
Proof.
  intros Hcfg. unfold startEnvironment, getThis, mbind, M_bind, throw.
  by rewrite Hcfg.
Qed.

End Start.

(** C3: when no trial configuration has been stored (the service is as its
    constructor left it, and no [config] call since had the trial-config key
    with a value that parses), startEnvironment is rejected with the error
    that the local trial config is not initialized and leaves the state as it
    found it: nothing is asked of the file system, no record is written. *)
Theorem start_without_config {host : Host} (w : World) (experimentId root : string)
    (records : gmap nat Env.t) (calls : list (string * string)) (r : nat) :
  forallb (fun call => negb (storesTrialConfig call)) calls = true ->
  startEnvironment r w
    (configureAll calls w (mkState (newService experimentId root) records []))
  = (Throw (mkError "Local trial config is not initialized"),
     configureAll calls w (mkState (newService experimentId root) records [])).
Proof.
  intros Hcalls. apply startEnvironment_unconfigured.
  by rewrite configureAll_not_stored.
Qed.

Lemma start_without_config_witness :
  startEnvironment (host := linux) 0%nat emptyWorld
    (configureAll (host := linux) [("gpu_indices", "0,1"); ("trial_config", "{oops")]
       emptyWorld
       (mkState (newService "exp" "/tmp/exp") {[ 0%nat := newEnvironment "a" ]} []))
  = (Throw (mkError "Local trial config is not initialized"),
     configureAll (host := linux) [("gpu_indices", "0,1"); ("trial_config", "{oops")]
       emptyWorld
       (mkState (newService "exp" "/tmp/exp") {[ 0%nat := newEnvironment "a" ]} [])).
Proof.
  apply (start_without_config (host := linux) emptyWorld "exp" "/tmp/exp"
           {[ 0%nat := newEnvironment "a" ]}
           [("gpu_indices", "0,1"); ("trial_config", "{oops")] 0%nat).
  reflexivity.
Defined.

(** In the experiment: the two calls leave one debug line, and the rejected
    start adds nothing. *)
Example start_without_config_trace :
  trace (startEnvironment (host := linux) 0%nat emptyWorld
           (configureAll (host := linux)
              [("gpu_indices", "0,1"); ("trial_config", "{oops")] emptyWorld
              (mkState (newService "exp" "/tmp/exp")
                 {[ 0%nat := newEnvironment "a" ]} []))).2
  = [LogDebug "Local mode does not proccess metadata key: 'gpu_indices', value: '0,1'"].
Proof. reflexivity. Qed.


Section StartConfigured.
Context {host : Host}.

(** The script is made without asking the world anything. *)
Lemma getScript_eq r w st :
  exists script,
    getScript r w st =
      (Normal script,
       mkState (this st)
         (if String.eqb process_platform "win32"
          then alter (Env.with_command
                        ("cd envs\" +:+ Env.id (heap st !!! r)
                         +:+ " && python -m nni.tools.trial_tool.trial_runner"))
                 r (heap st)
          else heap st)
         (trace st)).
Proof.
  unfold getScript. rewrite run_bind_getThis.
  destruct (String.eqb process_platform "win32").
  - eexists. repeat run_step. reflexivity.
  - repeat run_step.
    destruct (String.eqb process_platform "darwin"); eexists; by destruct st.
Qed.

Lemma startEnvironment_configured r w st e :
  localTrialConfig (this st) <> None ->
  heap st !! r = Some e ->
  let codeFolder := path_join [experimentRootDir (this st); "envs"] in
  let tempFolder :=
    path_join [experimentRootDir (this st); experimentId (this st);
               "environment-temp"; "envs"] in
  let folder := path_join [codeFolder; Env.id e] in
  let scriptPath := path_join [codeFolder; getScriptName "run"] in
  exists data e',
    startedFrom folder e e' /\
    startEnvironment r w st =
      ((startOutcome w folder tempFolder codeFolder scriptPath data).1,
       mkState (this st) (<[r := e']> (heap st))
         (trace st ++ (startOutcome w folder tempFolder codeFolder scriptPath data).2)).
Proof.
  intros Hcfg Hr codeFolder tempFolder folder scriptPath.
  unfold startEnvironment. rewrite run_bind_getThis.
  rewrite bool_decide_eq_false_2 by done.
  repeat run_step. fold codeFolder tempFolder scriptPath.
  rewrite (lookup_total_correct _ _ _ Hr). fold folder.
  state_simpl. rewrite (alter_present _ _ _ _ Hr), lookup_total_insert_eq.
  cbn [Env.runnerWorkingFolder Env.with_runnerWorkingFolder].
  unfold util_execMkdir, util_execCopydir, fs_promises_writeFile, util_runScript.
  unfold startOutcome.
  rewrite run_bind_ask. destruct (execMkdir w folder) as [[]|err]; state_simpl.
  2:{ exists EmptyString, (Env.with_runnerWorkingFolder folder e). by repeat split. }
  rewrite run_bind_ask. destruct (execCopydir w tempFolder codeFolder) as [[]|err];
    state_simpl.
  2:{ exists EmptyString, (Env.with_runnerWorkingFolder folder e).
      repeat split. by rewrite <- app_assoc. }
  match goal with |- context [(getScript r ≫= ?k) w ?s] =>
    destruct (getScript_eq r w s) as [script Hscript];
    change ((getScript r ≫= k) w s)
      with (match getScript r w s with
            | (Normal a, st') => k a w st'
            | (Throw err, st') => (Throw err, st')
            end);
    rewrite Hscript
  end.
  state_simpl.
  repeat run_step. state_simpl.
  set (h := if String.eqb process_platform "win32" then _ else _).
  assert (exists e1, h = <[r := e1]> (heap st) /\ startedFrom folder e e1)
    as (e1 & -> & He1).
  { subst h. destruct (String.eqb process_platform "win32").
    - rewrite alter_insert_eq. eexists. split; [done|]. by repeat split.
    - eexists. split; [done|]. by repeat split. }
  rewrite ?alter_insert_eq, ?lookup_total_insert_eq, ?insert_insert_eq.
  cbn [Env.command Env.with_command].
  set (data := JS.join getNewLine script). exists data.
  rewrite run_bind_ask.
  destruct He1 as (Hid & Hstatus & Halive & Hfolder).
  destruct (writeFile w scriptPath data 511) as [[]|err]; state_simpl.
  2:{ eexists. split; [|by rewrite <- !app_assoc]. by repeat split. }
  rewrite run_bind_ask.
  destruct (runScript w scriptPath) as [[]|err]; state_simpl.
  2:{ eexists. split; [|by rewrite <- !app_assoc]. by repeat split. }
  repeat run_step. state_simpl.
  unfold set. state_simpl.
  rewrite ?alter_insert_eq, ?lookup_total_insert_eq, ?insert_insert_eq.
  eexists. split; [|by rewrite <- !app_assoc].
  by repeat split.
Qed.

End StartConfigured.

(** C10: [config] stores whatever the value parses to, and the check of
    startEnvironment only asks whether something was stored.  With the value
    [null] the stored trial configuration has no command, yet a later
    startEnvironment passes the check: the first thing it does is to create
    the working folder, and in a world where the file-system actions succeed
    it goes on to copy the code folder, write the script and run it, and
    completes normally. *)
Theorem start_with_null_config {host : Host} (w : World) (st : State) (r : nat) (e : Env.t) :
  JSON_parse "null" = Normal JNull ->
  heap st !! r = Some e ->
  let st1 := (config TRIAL_CONFIG "null" w st).2 in
  let codeFolder := path_join [experimentRootDir (this st); "envs"] in
  let tempFolder :=
    path_join [experimentRootDir (this st); experimentId (this st);
               "environment-temp"; "envs"] in
  let folder := path_join [codeFolder; Env.id e] in
  let scriptPath := path_join [codeFolder; getScriptName "run"] in
  localTrialConfig (this st1) = Some JNull /\
  trialCommand JNull = None /\
  (exists rest,
     trace (startEnvironment r w st1).2 = trace st ++ ExecMkdir folder :: rest) /\
  ((forall path, execMkdir w path = Normal tt) ->
   (forall source destination, execCopydir w source destination = Normal tt) ->
   (forall path data mode, writeFile w path data mode = Normal tt) ->
   (forall path, runScript w path = Normal tt) ->
   (startEnvironment r w st1).1 = Normal tt /\
   exists data,
     trace (startEnvironment r w st1).2 =
       trace st ++ [ExecMkdir folder; ExecCopydir tempFolder codeFolder;
                    FsWriteFile scriptPath data 511; RunScript scriptPath]).
Proof.
  intros Hnull Hr st1 codeFolder tempFolder folder scriptPath.
  assert (Hst1 : st1 = mkState (with_localTrialConfig (Some JNull) (this st))
                         (heap st) (trace st)).
  { subst st1. unfold config, JSON_parse_, setThis, mbind, M_bind.
    by rewrite String.eqb_refl, Hnull. }
  rewrite Hst1. clear Hst1 st1. split; [done|]. split; [done|].
  destruct (startEnvironment_configured r w
              (mkState (with_localTrialConfig (Some JNull) (this st))
                 (heap st) (trace st)) e)
    as (data & e' & _ & ->); [done..|].
  cbn [this heap trace with_localTrialConfig experimentRootDir experimentId fst snd].
  fold codeFolder tempFolder folder scriptPath. split.
  - unfold startOutcome. repeat case_match; by eexists.
  - intros Hmkdir Hcopy Hwrite Hrun. unfold startOutcome.
    rewrite Hmkdir, Hcopy, Hwrite, Hrun. split; [done|]. by exists data.
Qed.

Lemma start_with_null_config_witness :
  localTrialConfig
    (this (config (host := linux) "trial_config" "null" emptyWorld experiment).2)
  = Some JNull.
Proof.
  apply (start_with_null_config (host := linux) emptyWorld experiment 0%nat envA
           eq_refl eq_refl).
Defined.

(** In the experiment: what that start does to the file system. *)
Example start_with_null_config_trace :
  (startEnvironment (host := linux) 0%nat emptyWorld
     (config (host := linux) "trial_config" "null" emptyWorld experiment).2).1
    = Normal tt /\
  map (fun a => match a with
                | FsWriteFile path _ mode => FsWriteFile path EmptyString mode
                | _ => a
                end)
    (trace (startEnvironment (host := linux) 0%nat emptyWorld
              (config (host := linux) "trial_config" "null" emptyWorld experiment).2).2)
    = [ExecMkdir "/tmp/exp/envs/a";
       ExecCopydir "/tmp/exp/exp/environment-temp/envs" "/tmp/exp/envs";
       FsWriteFile "/tmp/exp/envs/run.sh" EmptyString 511;
       RunScript "/tmp/exp/envs/run.sh"].
Proof. split; reflexivity. Qed.

(** ** Stop *)

(** C8: stopEnvironment on an environment whose isAlive flag is false
    completes normally and leaves the state as it found it: no file is read
    and no signal is sent.  So a second stop does what the first did:
    nothing. *)
Theorem stop_not_alive {host : Host} (w : World) (st : State) (r : nat) :
  Env.isAlive (heap st !!! r) = false ->
  stopEnvironment r w st = (Normal tt, st) /\
  (stopEnvironment r ≫= fun _ => stopEnvironment r) w st = stopEnvironment r w st.
Proof.
  intros Halive.
  assert (Hstop : stopEnvironment r w st = (Normal tt, st)).
  { unfold stopEnvironment. rewrite run_bind_get, Halive. done. }
  split; [done|]. unfold mbind at 1, M_bind at 1. by rewrite Hstop.
Qed.

Lemma stop_not_alive_witness :
  stopEnvironment (host := linux) 0%nat started
    (mkState (newService "exp" "/tmp/exp")
       {[ 0%nat := Env.mk "a" SUCCEEDED EmptyString "/tmp/exp/envs/a"
                     "/tmp/exp/envs/a" false ]} [])
  = (Normal tt,
     mkState (newService "exp" "/tmp/exp")
       {[ 0%nat := Env.mk "a" SUCCEEDED EmptyString "/tmp/exp/envs/a"
                     "/tmp/exp/envs/a" false ]} []).
Proof.
  apply (stop_not_alive (host := linux) started
           (mkState (newService "exp" "/tmp/exp")
              {[ 0%nat := Env.mk "a" SUCCEEDED EmptyString "/tmp/exp/envs/a"
                            "/tmp/exp/envs/a" false ]} []) 0%nat).
  reflexivity.
Defined.




(** ** The script generator *)

(** C4, as stated, fails on Windows: generating the script assigns the
    command field of the record it is given. *)
Lemma getScript_assigns_command :
  Env.command <$>
    heap (mkState (newService "exp" "C:\exp")
            {[ 0%nat := Env.mk "a" WAITING "python runner.py" "C:\exp\envs\a"
                          EmptyString true ]} []) !! 0%nat
  = Some "python runner.py" /\
  Env.command <$>
    heap (getScript (host := win32) 0%nat emptyWorld
            (mkState (newService "exp" "C:\exp")
               {[ 0%nat := Env.mk "a" WAITING "python runner.py" "C:\exp\envs\a"
                             EmptyString true ]} [])).2 !! 0%nat
  = Some "cd envs\a && python -m nni.tools.trial_tool.trial_runner".
Proof. split; reflexivity. Qed.

(** C4, amended: generating the script never fails, asks nothing of the
    world and performs no action on it (no file is written, no process is
    run), and leaves the service's fields alone.  Off Windows it leaves every
    record as it is; on Windows it assigns one field of the record it is
    given, the command, and leaves the other records as they are. *)
Theorem getScript_effects {host : Host} (w : World) (st : State) (r : nat) :
  exists script,
    getScript r w st =
      (Normal script,
       mkState (this st)
         (if String.eqb process_platform "win32"
          then alter (Env.with_command
                        ("cd envs\" +:+ Env.id (heap st !!! r)
                         +:+ " && python -m nni.tools.trial_tool.trial_runner"))
                 r (heap st)
          else heap st)
         (trace st)).
Proof. apply getScript_eq. Qed.

(** The script of environment [a] on Linux: three statements, the last one
    writing the exit-code marker with a millisecond time stamp. *)
Example getScript_linux :
  (getScript (host := linux) 0%nat emptyWorld
     (mkState (newService "exp" "/tmp/exp")
        {[ 0%nat := Env.with_command "python runner.py" envA ]} [])).1
  = Normal
      [ "cd /tmp/exp";
        "eval python runner.py --job_pid_file /tmp/exp/envs/a/pid "
          +:+ "1>/tmp/exp/envs/a/trialrunner_stdout "
          +:+ "2>/tmp/exp/envs/a/trialrunner_stderr" +:+ dq;
        "echo $? " +:+ backtick +:+ "date +%s%3N" +:+ backtick
          +:+ " >'/tmp/exp/envs/a/code'" ].
Proof. reflexivity. Qed.

(** ** Paths *)

Lemma split_nonempty s : Posix.split s <> [].
Proof.
  destruct s as [|c s]; [done|]. simpl.
  destruct (Ascii.eqb c "/"); [done|]. by destruct (Posix.split s).
Qed.

Lemma split_plain x : allOf notSlash x = true -> Posix.split x = [x].
Proof.
  induction x as [|c x IH]; [done|]. simpl. unfold notSlash at 1.
  intros [Hc Hx]%andb_prop. apply negb_true_iff in Hc. rewrite Hc.
  by rewrite (IH Hx).
Qed.

Lemma split_snoc d x :
  allOf notSlash x = true ->
  Posix.split (d +:+ "/" +:+ x) = Posix.split d ++ [x].
Proof.
  intros Hx. induction d as [|c d IH].
  - change (Posix.split (EmptyString +:+ "/" +:+ x))
      with (EmptyString :: Posix.split x).
    by rewrite (split_plain x Hx).
  - rewrite append_cons. simpl. destruct (Ascii.eqb c "/"); [by rewrite IH|].
    rewrite IH. pose proof (split_nonempty d). by destruct (Posix.split d).
Qed.

Lemma plainName_inv x :
  plainName x = true ->
  String.eqb x EmptyString = false /\ String.eqb x "." = false /\
  String.eqb x ".." = false /\ allOf notSlash x = true.
Proof.
  unfold plainName. intros [[[H1 H2]%andb_prop H3]%andb_prop H4]%andb_prop.
  by rewrite !negb_true_iff in H1, H2, H3.
Qed.

Lemma normalizeSegments_snoc allow segs x :
  plainName x = true ->
  Posix.normalizeSegments allow (segs ++ [x]) =
    Posix.normalizeSegments allow segs ++ [x].
Proof.
  intros (H1 & H2 & H3 & _)%plainName_inv.
  unfold Posix.normalizeSegments. rewrite fold_left_app. simpl.
  unfold Posix.pushSegment at 1. by rewrite H1, H2, H3.
Qed.

Lemma join_snoc sep l x :
  JS.join sep (l ++ [x]) =
    match l with [] => x | _ => JS.join sep l +:+ sep +:+ x end.
Proof.
  induction l as [|y l IH]; [done|].
  destruct l as [|z l]; [done|].
  change (JS.join sep ((y :: z :: l) ++ [x]))
    with (y +:+ sep +:+ JS.join sep ((z :: l) ++ [x])).
  rewrite IH.
  change (JS.join sep (y :: z :: l)) with (y +:+ sep +:+ JS.join sep (z :: l)).
  by rewrite !append_assoc.
Qed.

Lemma endsWithSlash_append s x :
  x <> EmptyString -> Posix.endsWithSlash (s +:+ x) = Posix.endsWithSlash x.
Proof.
  intros Hx. induction s as [|c s IH]; [done|].
  rewrite append_cons. simpl. rewrite IH.
  destruct (s +:+ x) eqn:Hsx; [|done].
  destruct s; [|done]. by rewrite append_empty_l in Hsx.
Qed.

Lemma endsWithSlash_plain x : allOf notSlash x = true -> Posix.endsWithSlash x = false.
Proof.
  induction x as [|c x IH]; [done|]. simpl. unfold notSlash at 1.
  intros [Hc Hx]%andb_prop. apply negb_true_iff in Hc.
  destruct x; [done|]. by apply IH.
Qed.

Lemma append_nonempty_r (s t : string) : t <> EmptyString -> s +:+ t <> EmptyString.
Proof. intros Ht. destruct s; [done|]. by rewrite append_cons. Qed.

(** Joining a folder and a plain name appends the name to the normalised
    folder. *)
Lemma posix_join_plain d x :
  d <> EmptyString -> plainName x = true ->
  Posix.join [d; x] =
    (if Posix.isAbsolute d then "/" else EmptyString)
    +:+ JS.join "/" (Posix.normalizeSegments (negb (Posix.isAbsolute d)) (Posix.split d)
                     ++ [x]).
Proof.
  intros Hd Hx. pose proof (plainName_inv x Hx) as (Hx0 & _ & _ & Hslash).
  assert (Hxne : x <> EmptyString) by (by intros ->).
  unfold Posix.join.
  assert (Hfilter : filter (fun arg : string => arg <> EmptyString) [d; x] = [d; x]).
  { rewrite filter_cons_True by done. f_equal. by rewrite filter_cons_True. }
  rewrite Hfilter. cbn [JS.join].
  unfold Posix.normalize.
  assert (Habs : Posix.isAbsolute (d +:+ "/" +:+ x) = Posix.isAbsolute d)
    by (by destruct d).
  rewrite Habs, split_snoc, normalizeSegments_snoc by done.
  rewrite endsWithSlash_append by (by apply append_nonempty_r).
  rewrite endsWithSlash_append by done.
  rewrite (endsWithSlash_plain x Hslash).
  destruct (d +:+ "/" +:+ x) eqn:Hp; [by destruct d|].
  set (res := JS.join "/" _).
  assert (Hres : res <> EmptyString).
  { subst res. rewrite join_snoc. case_match; [done|]. by apply append_nonempty_r,
      append_nonempty_r. }
  destruct res; [done|]. by rewrite append_empty_r.
Qed.


Lemma posix_join_nonempty l : Posix.join l <> EmptyString.
Proof.
  unfold Posix.join, Posix.normalize.
  repeat case_match; try done.
  all: by apply append_nonempty_r; rewrite append_cons.
Qed.


(** *** Joining below a folder that was joined

    A path that [Posix.join] returns is in normal form, so that joining a
    plain name to it only appends the name. *)

Lemma split_cons_plain a rest :
  allOf notSlash a = true ->
  Posix.split (a +:+ "/" +:+ rest) = a :: Posix.split rest.
Proof.
  induction a as [|c a IH]; [done|]. intros Hall. simpl in Hall.
  apply andb_prop in Hall as [Hc Ha]. apply negb_true_iff in Hc.
  rewrite append_cons. cbn [Posix.split]. by rewrite Hc, (IH Ha).
Qed.

Lemma split_join l :
  l <> [] -> Forall (fun x => allOf notSlash x = true) l ->
  Posix.split (JS.join "/" l) = l.
Proof.
  intros Hl Hall. induction Hall as [|x l Hx Hall IH]; [done|].
  destruct l as [|y l]; [by apply split_plain|].
  change (JS.join "/" (x :: y :: l)) with (x +:+ "/" +:+ JS.join "/" (y :: l)).
  rewrite split_cons_plain by done. by rewrite IH.
Qed.

Lemma split_slashfree s : Forall (fun x => allOf notSlash x = true) (Posix.split s).
Proof.
  induction s as [|c s IH]; [by repeat constructor|]. simpl.
  destruct (Ascii.eqb c "/") eqn:Hc; [by constructor|].
  destruct (Posix.split s) as [|seg segs]; [by repeat constructor; simpl;
    unfold notSlash; rewrite Hc|].
  inversion IH; subst. constructor; [|done]. simpl. unfold notSlash at 1.
  by rewrite Hc.
Qed.

Lemma plainName_intro x :
  String.eqb x EmptyString = false -> String.eqb x "." = false ->
  String.eqb x ".." = false -> allOf notSlash x = true -> plainName x = true.
Proof. unfold plainName. by intros -> -> -> ->. Qed.

Lemma pushSegment_plain allow stack x :
  plainName x = true -> Posix.pushSegment allow stack x = x :: stack.
Proof.
  intros (H1 & H2 & H3 & _)%plainName_inv. unfold Posix.pushSegment.
  by rewrite H1, H2, H3.
Qed.

Lemma pushSegment_stackOK allow stack seg :
  allOf notSlash seg = true -> stackOK allow stack ->
  stackOK allow (Posix.pushSegment allow stack seg).
Proof.
  intros Hseg (k & names & -> & Hnames & Hk). unfold Posix.pushSegment.
  destruct (String.eqb seg EmptyString) eqn:H1; [by exists k, names|].
  destruct (String.eqb seg ".") eqn:H2; [by exists k, names|]. cbn [orb].
  destruct (String.eqb_spec seg "..") as [->|H3].
  - destruct names as [|x names].
    + rewrite app_nil_l. destruct k as [|k]; simpl.
      * destruct allow; [|by exists 0%nat, []].
        exists 1%nat, []. by repeat split.
      * exists (S (S k)), []. repeat split; [done|].
        intros Hallow. by specialize (Hk Hallow).
    + inversion Hnames as [|? ? Hx Hnames']; subst.
      rewrite <- app_comm_cons.
      pose proof (plainName_inv x Hx) as (_ & _ & Hx3 & _). rewrite Hx3.
      by exists k, names.
  - exists k, (seg :: names). repeat split; [|done].
    constructor; [|done]. apply plainName_intro; try done.
    by apply String.eqb_neq.
Qed.

Lemma fold_pushSegment_stackOK allow segs stack :
  Forall (fun x => allOf notSlash x = true) segs -> stackOK allow stack ->
  stackOK allow (fold_left (Posix.pushSegment allow) segs stack).
Proof.
  intros Hsegs. revert stack. induction Hsegs as [|seg segs Hseg Hsegs IH];
    intros stack Hstack; [done|].
  simpl. by apply IH, pushSegment_stackOK.
Qed.

Lemma fold_pushSegment_plain allow names stack :
  Forall (fun x => plainName x = true) names ->
  fold_left (Posix.pushSegment allow) names stack = rev names ++ stack.
Proof.
  intros Hnames. revert stack. induction Hnames as [|x names Hx Hnames IH];
    intros stack; [done|].
  simpl. rewrite pushSegment_plain by done. rewrite IH.
  by rewrite <- app_assoc.
Qed.

Lemma fold_pushSegment_dots k j :
  fold_left (Posix.pushSegment true) (replicate k "..") (replicate j "..")
  = replicate (k + j) "..".
Proof.
  revert j. induction k as [|k IH]; intros j; [done|]. simpl.
  replace (Posix.pushSegment true (replicate j "..") "..")
    with (replicate (S j) "..") by (by destruct j).
  rewrite IH. by replace (k + S j)%nat with (S (k + j)) by lia.
Qed.

Lemma rev_replicate {A} k (x : A) : rev (replicate k x) = replicate k x.
Proof.
  induction k as [|k IH]; [done|]. simpl. rewrite IH.
  clear IH. induction k as [|k IH]; [done|]. simpl. by rewrite IH.
Qed.

(** Normalising the segments of a normal form gives them back. *)
Lemma normalizeSegments_stackOK allow stack :
  stackOK allow stack ->
  Posix.normalizeSegments allow (rev stack) = rev stack.
Proof.
  intros (k & names & -> & Hnames & Hk). unfold Posix.normalizeSegments.
  rewrite rev_app_distr, rev_replicate, fold_left_app.
  assert (Hdots : fold_left (Posix.pushSegment allow) (replicate k "..") []
                  = replicate k "..").
  { destruct allow.
    - change (@nil string) with (replicate 0 ".."). rewrite fold_pushSegment_dots.
      f_equal. lia.
    - by rewrite Hk. }
  rewrite Hdots, fold_pushSegment_plain by (by apply Forall_rev).
  by rewrite rev_involutive, rev_app_distr, rev_replicate.
Qed.

Lemma stackOK_slashfree allow stack :
  stackOK allow stack -> Forall (fun x => allOf notSlash x = true) stack.
Proof.
  intros (k & names & -> & Hnames & _). apply Forall_app. split.
  - eapply Forall_impl; [done|]. by intros x (_ & _ & _ & ?)%plainName_inv.
  - by apply Forall_replicate.
Qed.

Lemma stackOK_head allow stack x rest :
  stackOK allow stack -> rev stack = x :: rest ->
  Posix.isAbsolute x = false /\ x <> EmptyString.
Proof.
  intros (k & names & -> & Hnames & _) Hrev.
  rewrite rev_app_distr, rev_replicate in Hrev.
  destruct k as [|k]; simpl in Hrev; [|by injection Hrev as <-].
  assert (Hx : x ∈ rev names) by (rewrite Hrev; by left).
  apply list_elem_of_In, in_rev, list_elem_of_In in Hx.
  rewrite Forall_forall in Hnames. specialize (Hnames x Hx).
  apply plainName_inv in Hnames as (H0 & _ & _ & Hslash).
  destruct x as [|c x]; [done|]. split; [|done].
  simpl in *. unfold notSlash in Hslash at 1.
  apply andb_prop in Hslash as [Hc _]. by apply negb_true_iff in Hc.
Qed.

Lemma isAbsolute_join x rest :
  x <> EmptyString ->
  Posix.isAbsolute (JS.join "/" (x :: rest)) = Posix.isAbsolute x.
Proof. intros Hx. destruct x; [done|]. by destruct rest. Qed.

Lemma posix_join_join_plain d x y :
  d <> EmptyString -> plainName x = true -> plainName y = true ->
  Posix.join [Posix.join [d; x]; y] = Posix.join [d; x] +:+ "/" +:+ y.
Proof.
  intros Hd Hx Hy.
  rewrite (posix_join_plain (Posix.join [d; x]) y)
    by (done || apply posix_join_nonempty).
  rewrite (posix_join_plain d x) by done.
  set (abs := Posix.isAbsolute d).
  set (N := Posix.normalizeSegments (negb abs) (Posix.split d)).
  assert (HOK : stackOK (negb abs) (x :: rev N)).
  { subst N. unfold Posix.normalizeSegments. rewrite rev_involutive.
    assert (HN : stackOK (negb abs)
                   (fold_left (Posix.pushSegment (negb abs)) (Posix.split d) [])).
    { apply fold_pushSegment_stackOK; [apply split_slashfree|].
      exists 0%nat, []. by repeat split. }
    destruct HN as (k & names & -> & Hnames & Hk).
    exists k, (x :: names). repeat split; [|done]. by constructor. }
  assert (Hrev : rev (x :: rev N) = N ++ [x])
    by (simpl; by rewrite rev_involutive).
  assert (Hsplit : Posix.split (JS.join "/" (N ++ [x])) = N ++ [x]).
  { apply split_join; [by destruct N|]. rewrite <- Hrev.
    apply Forall_rev. by eapply stackOK_slashfree. }
  assert (Hrel : Posix.isAbsolute (JS.join "/" (N ++ [x])) = false).
  { destruct (N ++ [x]) as [|z rest] eqn:HNx; [by destruct N|].
    assert (Hz : Posix.isAbsolute z = false /\ z <> EmptyString).
    { eapply stackOK_head; [exact HOK|]. by rewrite Hrev. }
    destruct Hz as [Hz Hz0]. by rewrite isAbsolute_join. }
  assert (Hnorm : Posix.normalizeSegments (negb abs) (N ++ [x]) = N ++ [x]).
  { rewrite <- Hrev. by apply normalizeSegments_stackOK. }
  assert (Habs : Posix.isAbsolute
                   ((if abs then "/" else EmptyString) +:+ JS.join "/" (N ++ [x]))
                 = abs).
  { destruct abs; [done|]. by rewrite append_empty_l. }
  rewrite Habs.
  assert (Hseg : Posix.normalizeSegments (negb abs)
                   (Posix.split ((if abs then "/" else EmptyString)
                                 +:+ JS.join "/" (N ++ [x])))
                 = N ++ [x]).
  { destruct abs.
    - change (Posix.split ("/" +:+ JS.join "/" (N ++ [x])))
        with (EmptyString :: Posix.split (JS.join "/" (N ++ [x]))).
      rewrite Hsplit.
      change (Posix.normalizeSegments (negb true) (EmptyString :: (N ++ [x])))
        with (Posix.normalizeSegments (negb true) (N ++ [x])).
      done.
    - rewrite append_empty_l, Hsplit. done. }
  rewrite Hseg, (join_snoc "/" (N ++ [x]) y).
  destruct (N ++ [x]) eqn:HNx; [by destruct N|].
  by rewrite !append_assoc.
Qed.



(** ** The artifacts of an environment *)


(** Ids that are not plain names can also share a working folder. *)
Example working_folder_shared :
  Posix.join [Posix.join ["/tmp/exp"; "envs"]; "a"] =
  Posix.join [Posix.join ["/tmp/exp"; "envs"]; "./a"].
Proof. reflexivity. Qed.



(** * Further properties *)

(** ** Configuration *)

Section Config.
Context {host : Host}.

Lemma config_stored key value v w st :
  String.eqb key TRIAL_CONFIG = true -> JSON_parse value = Normal v ->
  config key value w st =
    (Normal tt, mkState (with_localTrialConfig (Some v) (this st)) (heap st) (trace st)).
Proof.
  intros Hkey Hparse. unfold config, JSON_parse_, setThis, mbind, M_bind.
  by rewrite Hkey, Hparse.
Qed.

Lemma config_rejected key value err w st :
  String.eqb key TRIAL_CONFIG = true -> JSON_parse value = Throw err ->
  config key value w st = (Throw err, st).
Proof.
  intros Hkey Hparse. unfold config, JSON_parse_, setThis, mbind, M_bind.
  by rewrite Hkey, Hparse.
Qed.

Lemma config_unprocessed key value w st :
  String.eqb key TRIAL_CONFIG = false ->
  config key value w st =
    (Normal tt,
     mkState (this st) (heap st) (trace st ++ [unprocessedKey (key, value)])).
Proof. intros Hkey. unfold config. by rewrite Hkey. Qed.

Lemma configureAll_app calls1 calls2 w st :
  configureAll (calls1 ++ calls2) w st = configureAll calls2 w (configureAll calls1 w st).
Proof.
  revert st. induction calls1 as [|[key value] calls1 IH]; intros st; [done|].
  apply IH.
Qed.

End Config.

(** X1: of the trial configurations given to [config], the last one that
    parses is the one in force: after a call with the trial-config key and a
    value that parses to [v], the stored configuration is [v] however many
    calls follow, as long as none of them stores another; calls with other
    keys and calls whose value does not parse do not disturb it. *)
Theorem config_last_valid_wins {host : Host} (w : World) (st : State)
    (before after : list (string * string)) (value : string) (v : json) :
  JSON_parse value = Normal v ->
  forallb (fun call => negb (storesTrialConfig call)) after = true ->
  localTrialConfig
    (this (configureAll (before ++ (TRIAL_CONFIG, value) :: after) w st))
  = Some v.
Proof.
  intros Hparse Hafter. rewrite configureAll_app. cbn [configureAll].
  rewrite configureAll_not_stored by done.
  by rewrite (config_stored _ _ v) by (done || apply String.eqb_refl).
Qed.

Lemma config_last_valid_wins_witness :
  localTrialConfig
    (this (configureAll (host := linux)
             ([("trial_config", "true")]
              ++ ("trial_config", "null") :: [("trial_config", "{oops"); ("other", "1")])
             emptyWorld experiment))
  = Some JNull.
Proof.
  apply (config_last_valid_wins (host := linux) emptyWorld experiment
           [("trial_config", "true")] [("trial_config", "{oops"); ("other", "1")]
           "null" JNull); reflexivity.
Defined.


(** X3: configuring never touches an environment record or the experiment's
    folder and id, and asks nothing of the world; all it leaves in the log is
    one debug line for each call whose key it does not process, in the order
    of the calls. *)
Theorem config_frame {host : Host} (w : World) (st : State)
    (calls : list (string * string)) :
  heap (configureAll calls w st) = heap st /\
  experimentRootDir (this (configureAll calls w st)) = experimentRootDir (this st) /\
  experimentId (this (configureAll calls w st)) = experimentId (this st) /\
  trace (configureAll calls w st) =
    trace st ++
    map unprocessedKey
      (List.filter (fun call => negb (String.eqb call.1 TRIAL_CONFIG)) calls).
Proof.
  revert st. induction calls as [|[key value] calls IH]; intros st.
  - simpl. by rewrite app_nil_r.
  - cbn [configureAll List.filter fst]. destruct (IH (config key value w st).2)
      as (Hheap & Hroot & Hid & Htrace).
    rewrite Hheap, Hroot, Hid, Htrace.
    destruct (String.eqb key TRIAL_CONFIG) eqn:Hkey; cbn [negb].
    + destruct (JSON_parse value) as [v|err] eqn:Hparse.
      * by rewrite (config_stored _ _ v).
      * by rewrite (config_rejected _ _ err).
    + rewrite config_unprocessed by done. cbn [heap this trace snd map].
      by rewrite <- app_assoc.
Qed.

(** ** The status poller, further *)

Lemma alter_absent (f : Env.t -> Env.t) (r : nat) (h : gmap nat Env.t) :
  h !! r = None -> alter f r h = h.
Proof.
  intros Hr. apply map_eq. intros i. rewrite lookup_alter.
  case_decide; [subst; by rewrite Hr|done].
Qed.

Section PollFurther.
Context {host : Host}.

(** What one callback leaves of the service and in the log, whether the
    reference has a record or not. *)
Lemma refreshEnvironmentStatus_this_trace r w st :
  this (refreshEnvironmentStatus r w st).2 = this st /\
  trace (refreshEnvironmentStatus r w st).2 =
    trace st ++ polledActions w (Env.runnerWorkingFolder (heap st !!! r)).
Proof.
  destruct (heap st !! r) as [e|] eqn:Hr.
  - rewrite (refreshEnvironmentStatus_eq r w st e Hr). state_simpl.
    by rewrite (lookup_total_correct _ _ _ Hr).
  - destruct st as [svc h tr]. simpl in Hr.
    unfold refreshEnvironmentStatus, checkStatus, polledActions, setStatus,
      try_catch, mbind, M_bind, mret, M_ret, get, set, fs_existsSync,
      fs_promises_readFile, utils_isAlive, log_error, ask, perform, logged,
      pidPathOf, codePathOf.
    state_simpl.
    repeat (case_match; simplify_eq/=; rewrite <- ?app_assoc); done.
Qed.

Lemma refreshEnvironmentStatus_folder r r' w st :
  Env.runnerWorkingFolder (heap (refreshEnvironmentStatus r w st).2 !!! r') =
  Env.runnerWorkingFolder (heap st !!! r').
Proof.
  destruct (heap st !! r) as [e|] eqn:Hr.
  - rewrite (refreshEnvironmentStatus_eq r w st e Hr). state_simpl.
    destruct (decide (r = r')) as [<-|Hne].
    + rewrite lookup_total_insert_eq. by rewrite (lookup_total_correct _ _ _ Hr).
    + by rewrite lookup_total_insert_ne.
  - destruct (refreshEnvironmentStatus_alter r w st) as [f ->].
    by rewrite alter_absent.
Qed.

Lemma refreshEnvironmentsStatus_this l w st :
  this (refreshEnvironmentsStatus l w st).2 = this st.
Proof.
  unfold refreshEnvironmentsStatus. revert st.
  induction l as [|x l IH]; intros st; [done|].
  cbn [forEach_async]. rewrite IH. apply refreshEnvironmentStatus_this_trace.
Qed.

Lemma refreshEnvironmentsStatus_trace l w st :
  trace (refreshEnvironmentsStatus l w st).2 =
    trace st ++
    concat (map (fun r => polledActions w (Env.runnerWorkingFolder (heap st !!! r))) l).
Proof.
  unfold refreshEnvironmentsStatus. revert st.
  induction l as [|x l IH]; intros st.
  - simpl. by rewrite app_nil_r.
  - cbn [forEach_async map concat]. rewrite IH.
    destruct (refreshEnvironmentStatus_this_trace x w st) as [_ ->].
    rewrite <- app_assoc. do 3 f_equal.
    apply map_ext. intros r. by rewrite refreshEnvironmentStatus_folder.
Qed.

Lemma polledActions_questions w folder :
  forallb isQuestion (polledActions w folder) = true.
Proof. unfold polledActions, logged. repeat case_match; done. Qed.

End PollFurther.

(** X4: a poll changes nothing of a record but its status: the id, the
    command, the working folder, the tracking URL and the alive flag of
    every record are after the poll what they were before, whatever the
    world answers.  It makes no record and removes none, and it leaves the
    fields of the service alone. *)
Theorem poll_changes_status_only {host : Host} (w : World) (st : State)
    (environments : list nat) (r : nat) :
  this (refreshEnvironmentsStatus environments w st).2 = this st /\
  match heap st !! r with
  | Some e =>
      exists s, heap (refreshEnvironmentsStatus environments w st).2 !! r =
                  Some (Env.mk (Env.id e) s (Env.command e)
                          (Env.runnerWorkingFolder e) (Env.trackingUrl e)
                          (Env.isAlive e))
  | None => heap (refreshEnvironmentsStatus environments w st).2 !! r = None
  end.
Proof.
  split; [apply refreshEnvironmentsStatus_this|].
  destruct (heap st !! r) as [e|] eqn:Hr.
  - rewrite (refreshEnvironmentsStatus_lookup _ _ _ _ _ Hr). eauto.
  - by apply refreshEnvironmentsStatus_absent.
Qed.

(** X5: a poll only asks and logs.  It completes normally whatever the
    world answers, and what it adds to the run of actions is, for each
    environment of the batch in turn, the questions about that environment's
    markers and process and at most one error line, six actions at most: no
    file is written, no folder made or copied, no script run and no signal
    sent. *)
Theorem poll_only_asks {host : Host} (w : World) (st : State)
    (environments : list nat) :
  (refreshEnvironmentsStatus environments w st).1 = Normal tt /\
  exists added,
    trace (refreshEnvironmentsStatus environments w st).2 = trace st ++ added /\
    forallb isQuestion added = true /\
    (length added <= 6 * length environments)%nat.
Proof.
  split; [apply forEach_async_normal|].
  eexists. split; [apply refreshEnvironmentsStatus_trace|].
  induction environments as [|x l [IH1 IH2]]; [done|].
  cbn [map concat]. split.
  - rewrite forallb_app, IH1. by rewrite polledActions_questions.
  - rewrite length_app. cbn [length].
    assert (length (polledActions w (Env.runnerWorkingFolder (heap st !!! x))) <= 6)%nat.
    { unfold polledActions. repeat case_match; simpl; lia. }
    lia.
Qed.

(** X6: polling a batch a second time in the same world changes no record:
    the status a poll leaves is the status the next poll of the same world
    leaves too. *)
Theorem poll_twice_same_world {host : Host} (w : World) (st : State)
    (environments : list nat) :
  heap (refreshEnvironmentsStatus environments w
          (refreshEnvironmentsStatus environments w st).2).2
  = heap (refreshEnvironmentsStatus environments w st).2.
Proof.
  apply map_eq. intros r. destruct (heap st !! r) as [e|] eqn:Hr.
  - pose proof (refreshEnvironmentsStatus_lookup environments w st r e Hr) as H1.
    rewrite (refreshEnvironmentsStatus_lookup _ _ _ _ _ H1), H1.
    destruct e as [i s c f u a]. cbn [Env.with_status Env.runnerWorkingFolder Env.status].
    case_bool_decide; [|done]. by rewrite polledStatus_idem.
  - rewrite !refreshEnvironmentsStatus_absent; try done.
    by apply refreshEnvironmentsStatus_absent.
Qed.

(** X7: in one snapshot of the world the records after a poll depend on
    which environments the batch holds, not on their order nor on how often
    one is listed. *)
Theorem poll_order_irrelevant {host : Host} (w : World) (st : State)
    (environments environments' : list nat) :
  (forall r, r ∈ environments <-> r ∈ environments') ->
  heap (refreshEnvironmentsStatus environments w st).2 =
  heap (refreshEnvironmentsStatus environments' w st).2.
Proof. apply refreshEnvironmentsStatus_order. Qed.

Lemma poll_order_irrelevant_witness :
  heap (refreshEnvironmentsStatus (host := linux) [0; 1; 0]%nat
          brokenA_finishedB experimentAB).2 =
  heap (refreshEnvironmentsStatus (host := linux) [1; 0]%nat
          brokenA_finishedB experimentAB).2.
Proof.
  apply (poll_order_irrelevant (host := linux) brokenA_finishedB experimentAB
           [0; 1; 0]%nat [1; 0]%nat).
  intros r. rewrite !elem_of_cons, !elem_of_nil. tauto.
Defined.

(** X8: while the process named by the pid marker is alive the poll leaves
    RUNNING and does not look at the exit-code marker at all: it asks for
    the pid marker, reads it, asks whether the process lives, and stops. *)
Theorem poll_alive_process {host : Host} (w : World) (st : State)
    (r : nat) (e : Env.t) (pid : string) :
  heap st !! r = Some e ->
  existsSync w (path_join [Env.runnerWorkingFolder e; "pid"]) = true ->
  readFile w (path_join [Env.runnerWorkingFolder e; "pid"]) = Normal pid ->
  isAlive w pid = Normal true ->
  refreshEnvironmentsStatus [r] w st =
    (Normal tt,
     mkState (this st) (<[r := Env.with_status RUNNING e]> (heap st))
       (trace st ++ [FsExistsSync (path_join [Env.runnerWorkingFolder e; "pid"]);
                     FsReadFile (path_join [Env.runnerWorkingFolder e; "pid"]);
                     IsAlive pid])).
Proof.
  intros Hr Hpid Hpidr Halive.
  unfold refreshEnvironmentsStatus. cbn [forEach_async].
  rewrite (refreshEnvironmentStatus_eq r w st e Hr). state_simpl.
  unfold polledStatus, polledActions, pidPathOf.
  by rewrite Hpid, Hpidr, Halive.
Qed.

Lemma poll_alive_process_witness :
  refreshEnvironmentsStatus (host := linux) [0%nat]
    (withProcess "4242" (finished "0 1700000000123")) experiment =
    (Normal tt,
     mkState (this experiment) (<[0%nat := Env.with_status RUNNING envA]> (heap experiment))
       (trace experiment ++
          [FsExistsSync (path_join (Host := linux) [Env.runnerWorkingFolder envA; "pid"]);
           FsReadFile (path_join (Host := linux) [Env.runnerWorkingFolder envA; "pid"]);
           IsAlive "4242"])).
Proof.
  apply (poll_alive_process (host := linux)
           (withProcess "4242" (finished "0 1700000000123")) experiment 0%nat envA "4242");
    reflexivity.
Defined.

(** *** White space around the exit-code marker *)

Lemma trimStart_spaces pre s :
  allOf JS.isWhiteSpace pre = true -> JS.trimStart (pre +:+ s) = JS.trimStart s.
Proof.
  induction pre as [|c pre IH]; [done|]. intros [Hc Hpre]%andb_prop.
  rewrite append_cons. cbn [JS.trimStart]. rewrite Hc. by apply IH.
Qed.

Lemma trimStart_headNot s : headNot JS.isWhiteSpace s -> JS.trimStart s = s.
Proof. destruct s as [|c s]; [done|]. simpl. by intros ->. Qed.

Lemma trimEnd_spaces s post :
  allOf JS.isWhiteSpace post = true -> JS.trimEnd (s +:+ post) = JS.trimEnd s.
Proof.
  intros Hpost.
  assert (Hpost' : JS.trimEnd post = EmptyString).
  { induction post as [|c post IH]; [done|].
    apply andb_prop in Hpost as [Hc Hpost]. cbn [JS.trimEnd].
    by rewrite (IH Hpost), Hc. }
  induction s as [|c s IH]; [done|].
  rewrite append_cons. cbn [JS.trimEnd]. by rewrite IH.
Qed.

Lemma trimEnd_digits t :
  allOf JS.isDigit t = true -> JS.trimEnd t = t.
Proof.
  induction t as [|c t IH]; [done|]. intros [Hc Ht]%andb_prop.
  cbn [JS.trimEnd]. rewrite (IH Ht).
  destruct t; [|done]. by rewrite (digit_not_space c Hc).
Qed.

Lemma trimEnd_before_digits s t :
  allOf JS.isDigit t = true -> t <> EmptyString -> JS.trimEnd (s +:+ t) = s +:+ t.
Proof.
  intros Ht Hne. induction s as [|c s IH]; [by apply trimEnd_digits|].
  rewrite append_cons. cbn [JS.trimEnd]. rewrite IH.
  destruct (s +:+ t) eqn:Hst; [|done].
  destruct s; [|done]. by destruct Hne.
Qed.

(** A marker of the shape begins and ends with a character that is not
    white space, so that trimming takes away what is around it and no more. *)
Lemma trim_padded_shape pre core post sign code gap stamp :
  allOf JS.isWhiteSpace pre = true -> allOf JS.isWhiteSpace post = true ->
  returnCodeShape core sign code gap stamp ->
  JS.trim (pre +:+ core +:+ post) = core.
Proof.
  intros Hpre Hpost (-> & Hsign & Hcode & Hcode0 & _ & _ & Hstamp & Hstamp0).
  unfold JS.trim. rewrite trimStart_spaces by done.
  rewrite trimStart_headNot.
  - rewrite trimEnd_spaces by done.
    rewrite <- !append_assoc. by apply trimEnd_before_digits.
  - rewrite append_assoc.
    destruct Hsign as [-> | ->]; [|done].
    rewrite append_empty_l, append_assoc.
    by apply (headNot_append _ JS.isDigit); [apply digit_not_space| |].
Qed.

(** X9: white space around the content of the exit-code marker, such as
    the line end that [echo] puts after it, does not change what the poll
    makes of it: a marker that holds an optional minus, digits, white space
    and digits between any two runs of white space gives SUCCEEDED for the
    number 0 and FAILED for any other. *)
Theorem poll_marker_padding {host : Host} (w : World) (st : State)
    (environments : list nat) (r : nat) (e : Env.t)
    (pid pre core post sign code gap stamp : string) :
  heap st !! r = Some e -> r ∈ environments ->
  existsSync w (path_join [Env.runnerWorkingFolder e; "pid"]) = true ->
  readFile w (path_join [Env.runnerWorkingFolder e; "pid"]) = Normal pid ->
  isAlive w pid = Normal false ->
  existsSync w (path_join [Env.runnerWorkingFolder e; "code"]) = true ->
  readFile w (path_join [Env.runnerWorkingFolder e; "code"])
    = Normal (pre +:+ core +:+ post) ->
  allOf JS.isWhiteSpace pre = true -> allOf JS.isWhiteSpace post = true ->
  returnCodeShape core sign code gap stamp ->
  heap (refreshEnvironmentsStatus environments w st).2 !! r =
    Some (Env.with_status
            (if bool_decide (exitCodeOf sign code = 0) then SUCCEEDED else FAILED) e).
Proof.
  intros Hr Hin Hpid Hpidr Halive Hcode Hcoder Hpre Hpost Hshape.
  rewrite (refreshEnvironmentsStatus_lookup _ _ _ _ _ Hr).
  rewrite bool_decide_eq_true_2 by done.
  unfold polledStatus, pidPathOf, codePathOf.
  rewrite Hpid, Hpidr, Halive, Hcode, Hcoder.
  rewrite (markerStatus_shape _ sign code gap stamp); [done|].
  by rewrite (trim_padded_shape pre core post sign code gap stamp).
Qed.

Lemma poll_marker_padding_witness :
  heap (refreshEnvironmentsStatus (host := linux) [0%nat]
          (finished (String "009" "3 1700000000123" +:+ String "010" EmptyString))
          experiment).2 !! 0%nat
  = Some (Env.with_status FAILED envA).
Proof.
  refine (poll_marker_padding (host := linux)
            (finished (String "009" "3 1700000000123" +:+ String "010" EmptyString))
            experiment [0%nat] 0%nat envA "4242"
            (String "009" EmptyString) "3 1700000000123" (String "010" EmptyString)
            EmptyString "3" " " "1700000000123" _ _ _ _ _ _ _ _ _ _);
    try reflexivity.
  - apply elem_of_cons. by left.
  - repeat split; auto.
Defined.

(** ** Starting, further *)

Section StartFurther.
Context {host : Host}.

(** The script and the records after [getScript] do not depend on the run
    of actions so far, and [getScript] adds nothing to it. *)
Lemma getScript_run r w svc h :
  exists script,
    forall tr,
      getScript r w (mkState svc h tr) =
        (Normal script,
         mkState svc
           (if String.eqb process_platform "win32"
            then alter (Env.with_command
                          ("cd envs\" +:+ Env.id (h !!! r)
                           +:+ " && python -m nni.tools.trial_tool.trial_runner"))
                   r h
            else h)
           tr).
Proof.
  unfold getScript.
  destruct (String.eqb process_platform "win32").
  - eexists. intros tr. rewrite run_bind_getThis. repeat run_step.
    state_simpl. reflexivity.
  - destruct (String.eqb process_platform "darwin"); eexists; intros tr;
      rewrite run_bind_getThis; repeat run_step; state_simpl; reflexivity.
Qed.

(** A start that passed the check, in full: how it completes, the run of
    actions, the record it leaves, and the script that it writes. *)
Lemma startEnvironment_exact r w st e :
  localTrialConfig (this st) <> None ->
  heap st !! r = Some e ->
  let codeFolder := path_join [experimentRootDir (this st); "envs"] in
  let tempFolder :=
    path_join [experimentRootDir (this st); experimentId (this st);
               "environment-temp"; "envs"] in
  let folder := path_join [codeFolder; Env.id e] in
  let scriptPath := path_join [codeFolder; getScriptName "run"] in
  exists script,
    (forall tr,
       (getScript r w
          (mkState (this st) (<[r := Env.with_runnerWorkingFolder folder e]> (heap st))
             tr)).1 = Normal script) /\
    startEnvironment r w st =
      ((startOutcome w folder tempFolder codeFolder scriptPath
          (JS.join getNewLine script)).1,
       mkState (this st)
         (<[r := startRecord w folder tempFolder codeFolder scriptPath
                   (JS.join getNewLine script) e]> (heap st))
         (trace st ++ (startOutcome w folder tempFolder codeFolder scriptPath
                         (JS.join getNewLine script)).2)).
Proof.
  intros Hcfg Hr codeFolder tempFolder folder scriptPath.
  destruct (getScript_run r w (this st)
              (<[r := Env.with_runnerWorkingFolder folder e]> (heap st)))
    as [script Hscript].
  exists script. split; [intros tr; by rewrite Hscript|].
  unfold startEnvironment. rewrite run_bind_getThis.
  rewrite bool_decide_eq_false_2 by done.
  repeat run_step. fold codeFolder tempFolder scriptPath.
  rewrite (lookup_total_correct _ _ _ Hr). fold folder.
  state_simpl. rewrite (alter_present _ _ _ _ Hr), lookup_total_insert_eq.
  cbn [Env.runnerWorkingFolder Env.with_runnerWorkingFolder].
  unfold util_execMkdir, util_execCopydir, fs_promises_writeFile, util_runScript.
  unfold startOutcome, startRecord.
  rewrite run_bind_ask. destruct (execMkdir w folder) as [[]|err]; state_simpl; [|done].
  rewrite run_bind_ask. destruct (execCopydir w tempFolder codeFolder) as [[]|err];
    state_simpl; [|by rewrite <- app_assoc].
  match goal with |- context [(getScript r ≫= ?k) w ?s] =>
    change ((getScript r ≫= k) w s)
      with (match getScript r w s with
            | (Normal a, st') => k a w st'
            | (Throw err, st') => (Throw err, st')
            end);
    rewrite Hscript
  end.
  state_simpl. repeat run_step. state_simpl.
  set (data := JS.join getNewLine script).
  set (h := alter (Env.with_command data) r _).
  assert (Hh : h = <[r := Env.with_command data (Env.with_runnerWorkingFolder folder e)]>
                     (heap st)).
  { subst h. destruct (String.eqb process_platform "win32");
      rewrite ?alter_insert_eq, ?insert_insert_eq; by destruct e. }
  rewrite Hh. clear Hh h. rewrite lookup_total_insert_eq.
  cbn [Env.command Env.with_command Env.with_runnerWorkingFolder Env.id Env.status
         Env.runnerWorkingFolder Env.trackingUrl Env.isAlive].
  rewrite run_bind_ask.
  destruct (writeFile w scriptPath data 511) as [[]|err]; state_simpl;
    [|by rewrite <- !app_assoc].
  rewrite run_bind_ask.
  destruct (runScript w scriptPath) as [[]|err]; state_simpl;
    [|by rewrite <- !app_assoc].
  repeat run_step. state_simpl. unfold set. state_simpl.
  rewrite ?alter_insert_eq, ?lookup_total_insert_eq, ?insert_insert_eq.
  by rewrite <- !app_assoc.
Qed.

End StartFurther.

(** X10: after a start in which the folder is made, the code copied, the
    script written and run, the record has the new working folder, the same
    folder as its tracking URL, and as its command the very text that was
    written to the launcher script.  Its id, its status and its alive flag
    are as before: the start does not make the environment RUNNING. *)
Theorem start_leaves_record {host : Host} (w : World) (st : State) (r : nat) (e : Env.t) :
  localTrialConfig (this st) <> None ->
  heap st !! r = Some e ->
  let codeFolder := path_join [experimentRootDir (this st); "envs"] in
  let tempFolder :=
    path_join [experimentRootDir (this st); experimentId (this st);
               "environment-temp"; "envs"] in
  let folder := path_join [codeFolder; Env.id e] in
  let scriptPath := path_join [codeFolder; getScriptName "run"] in
  execMkdir w folder = Normal tt ->
  execCopydir w tempFolder codeFolder = Normal tt ->
  (forall data, writeFile w scriptPath data 511 = Normal tt) ->
  runScript w scriptPath = Normal tt ->
  exists data,
    startEnvironment r w st =
      (Normal tt,
       mkState (this st)
         (<[r := Env.mk (Env.id e) (Env.status e) data folder folder (Env.isAlive e)]>
            (heap st))
         (trace st ++ [ExecMkdir folder; ExecCopydir tempFolder codeFolder;
                       FsWriteFile scriptPath data 511; RunScript scriptPath])).
Proof.
  intros Hcfg Hr codeFolder tempFolder folder scriptPath Hmkdir Hcopy Hwrite Hrun.
  destruct (startEnvironment_exact r w st e Hcfg Hr) as (script & _ & ->).
  fold codeFolder tempFolder folder scriptPath.
  exists (JS.join getNewLine script).
  unfold startOutcome, startRecord. by rewrite Hmkdir, Hcopy, Hwrite, Hrun.
Qed.

Lemma start_leaves_record_witness :
  exists data,
    startEnvironment (host := linux) 0%nat emptyWorld configured =
      (Normal tt,
       mkState (this configured)
         (<[0%nat := Env.mk "a" WAITING data "/tmp/exp/envs/a" "/tmp/exp/envs/a" true]>
            (heap configured))
         (trace configured ++
            [ExecMkdir "/tmp/exp/envs/a";
             ExecCopydir "/tmp/exp/exp/environment-temp/envs" "/tmp/exp/envs";
             FsWriteFile "/tmp/exp/envs/run.sh" data 511;
             RunScript "/tmp/exp/envs/run.sh"])).
Proof.
  apply (start_leaves_record (host := linux) emptyWorld configured 0%nat envA);
    done.
Defined.

(** X11: a start that fails is not taken back.  When a start that passed
    the check completes with an error, the record already has the new
    working folder, while its tracking URL, id, status and alive flag are as
    before; the error is that of the action done last, and the script was
    run only if it is the running of the script that failed. *)
Theorem start_failure_keeps_folder {host : Host} (w : World) (st : State)
    (r : nat) (e : Env.t) (err : Error) :
  localTrialConfig (this st) <> None ->
  heap st !! r = Some e ->
  (startEnvironment r w st).1 = Throw err ->
  let codeFolder := path_join [experimentRootDir (this st); "envs"] in
  let folder := path_join [codeFolder; Env.id e] in
  let scriptPath := path_join [codeFolder; getScriptName "run"] in
  (exists command,
     heap (startEnvironment r w st).2 !! r =
       Some (Env.mk (Env.id e) (Env.status e) command folder (Env.trackingUrl e)
               (Env.isAlive e))) /\
  (exists added,
     trace (startEnvironment r w st).2 = trace st ++ added /\
     forall path, RunScript path ∈ added ->
       path = scriptPath /\ runScript w scriptPath = Throw err).
Proof.
  intros Hcfg Hr Herr codeFolder folder scriptPath.
  destruct (startEnvironment_exact r w st e Hcfg Hr) as (script & _ & Heq).
  rewrite Heq in Herr |- *. clear Heq.
  fold codeFolder folder scriptPath in Herr |- *.
  state_simpl. rewrite lookup_insert_eq.
  revert Herr. unfold startOutcome, startRecord.
  destruct (execMkdir w folder) as [[]|err1]; state_simpl.
  2:{ intros [= ->]. split; [by eexists|]. eexists. split; [done|].
      intros path Hin. apply list_elem_of_singleton in Hin. done. }
  destruct (execCopydir w _ codeFolder) as [[]|err1]; state_simpl.
  2:{ intros [= ->]. split; [by eexists|]. eexists. split; [done|].
      intros path Hin. rewrite !elem_of_cons, elem_of_nil in Hin.
      by destruct Hin as [?|[?|[]]]. }
  destruct (writeFile w scriptPath _ 511) as [[]|err1]; state_simpl.
  2:{ intros [= ->]. split; [by eexists|]. eexists. split; [done|].
      intros path Hin. rewrite !elem_of_cons, elem_of_nil in Hin.
      by destruct Hin as [?|[?|[?|[]]]]. }
  destruct (runScript w scriptPath) as [[]|err1]; state_simpl; [done|].
  intros [= ->]. split; [by eexists|]. eexists. split; [done|].
  intros path Hin. rewrite !elem_of_cons, elem_of_nil in Hin.
  destruct Hin as [?|[?|[?|[?|[]]]]]; try done. by simplify_eq.
Qed.

Lemma start_failure_keeps_folder_witness :
  (exists command,
     heap (startEnvironment (host := linux) 0%nat readOnlyDisk configured).2 !! 0%nat =
       Some (Env.mk "a" WAITING command "/tmp/exp/envs/a" EmptyString true)) /\
  (exists added,
     trace (startEnvironment (host := linux) 0%nat readOnlyDisk configured).2
       = trace configured ++ added /\
     forall path, RunScript path ∈ added ->
       path = "/tmp/exp/envs/run.sh" /\
       runScript readOnlyDisk "/tmp/exp/envs/run.sh"
         = Throw (mkError "EROFS: read-only file system, mkdir '/tmp/exp/envs/a'")).
Proof.
  apply (start_failure_keeps_folder (host := linux) readOnlyDisk configured 0%nat envA
           (mkError "EROFS: read-only file system, mkdir '/tmp/exp/envs/a'"));
    done.
Defined.

(** ** What a call leaves alone *)

Section Frames.
Context {host : Host}.

Lemma getScript_frame r r' w st :
  r' <> r ->
  this (getScript r w st).2 = this st /\
  heap (getScript r w st).2 !! r' = heap st !! r' /\
  trace (getScript r w st).2 = trace st.
Proof.
  intros Hne. destruct st as [svc h tr].
  destruct (getScript_run r w svc h) as [script ->]. state_simpl.
  destruct (String.eqb process_platform "win32"); [|done].
  by rewrite lookup_alter_ne.
Qed.

End Frames.

(** X12: a start touches the record it is given and nothing else of the
    state: every other record and the fields of the service are after the
    call what they were before, however the call completes, and the run of
    actions so far is only added to. *)
Theorem start_touches_own_record {host : Host} (w : World) (st : State) (r r' : nat) :
  r' <> r ->
  this (startEnvironment r w st).2 = this st /\
  heap (startEnvironment r w st).2 !! r' = heap st !! r' /\
  exists added, trace (startEnvironment r w st).2 = trace st ++ added.
Proof.
  intros Hne. destruct st as [svc h tr].
  assert (Hend : forall svc' (h' : gmap nat Env.t) tr' added,
            svc' = svc -> h' !! r' = h !! r' -> tr' = tr ++ added ->
            svc' = svc /\ h' !! r' = h !! r' /\ exists added', tr' = tr ++ added')
    by eauto.
  unfold startEnvironment. rewrite run_bind_getThis.
  case_bool_decide.
  { apply (Hend _ _ _ []); [done..|]. by rewrite app_nil_r. }
  repeat run_step. state_simpl.
  unfold util_execMkdir, util_execCopydir, fs_promises_writeFile, util_runScript.
  rewrite run_bind_ask. destruct (execMkdir w _) as [[]|err]; state_simpl.
  2:{ eapply Hend; [done| |done]. by rewrite lookup_alter_ne. }
  rewrite run_bind_ask. destruct (execCopydir w _ _) as [[]|err]; state_simpl.
  2:{ eapply Hend; [done| |by rewrite <- app_assoc]. by rewrite lookup_alter_ne. }
  match goal with |- context [(getScript r ≫= ?k) w (mkState ?svc1 ?h1 ?tr1)] =>
    destruct (getScript_run r w svc1 h1) as [script Hscript];
    change ((getScript r ≫= k) w (mkState svc1 h1 tr1))
      with (match getScript r w (mkState svc1 h1 tr1) with
            | (Normal a, st') => k a w st'
            | (Throw err, st') => (Throw err, st')
            end);
    rewrite Hscript
  end.
  repeat run_step. state_simpl.
  match goal with |- context [alter (Env.with_command (JS.join _ _)) r ?h1] =>
    assert (Hh1 : h1 !! r' = h !! r')
      by (destruct (String.eqb process_platform "win32");
          by rewrite ?lookup_alter_ne by done);
    generalize dependent h1
  end.
  intros h2 _ Hh2.
  rewrite run_bind_ask. destruct (writeFile w _ _ _) as [[]|err]; state_simpl.
  2:{ eapply Hend; [done| |by rewrite <- !app_assoc]. by rewrite lookup_alter_ne. }
  rewrite run_bind_ask. destruct (runScript w _) as [[]|err]; state_simpl.
  2:{ eapply Hend; [done| |by rewrite <- !app_assoc]. by rewrite lookup_alter_ne. }
  repeat run_step. unfold set. state_simpl.
  eapply Hend; [done| |by rewrite <- !app_assoc]. by rewrite !lookup_alter_ne by done.
Qed.

Lemma start_touches_own_record_witness :
  this (startEnvironment (host := linux) 0%nat emptyWorld
          (mkState (this configured) (heap experimentAB) [])).2 = this configured /\
  heap (startEnvironment (host := linux) 0%nat emptyWorld
          (mkState (this configured) (heap experimentAB) [])).2 !! 1%nat
    = heap experimentAB !! 1%nat /\
  exists added,
    trace (startEnvironment (host := linux) 0%nat emptyWorld
             (mkState (this configured) (heap experimentAB) [])).2 = [] ++ added.
Proof.
  apply (start_touches_own_record (host := linux) emptyWorld
           (mkState (this configured) (heap experimentAB) []) 0%nat 1%nat).
  lia.
Defined.

(** X13: stopping changes nothing of the state but the run of actions: no
    record is touched, so the alive flag is not cleared and no status is
    set, and the fields of the service stay as they are, whether the
    environment is alive or not and whether the pid marker can be read or
    not.  What it adds to the run of actions is at most the read of the pid
    marker and one signal. *)
Theorem stop_leaves_state {host : Host} (w : World) (st : State) (r : nat) :
  this (stopEnvironment r w st).2 = this st /\
  heap (stopEnvironment r w st).2 = heap st /\
  exists added,
    trace (stopEnvironment r w st).2 = trace st ++ added /\
    (length added <= 2)%nat /\
    forall a, a ∈ added ->
      (exists path, a = FsReadFile path) \/ (exists pid, a = Tkill pid "SIGKILL").
Proof.
  unfold stopEnvironment. rewrite run_bind_get.
  destruct (Env.isAlive (heap st !!! r)); cbn [negb].
  - rewrite run_bind_get. unfold fs_promises_readFile. rewrite run_bind_ask.
    destruct (readFile w _) as [pid|err]; state_simpl.
    + unfold tkill, perform. state_simpl. split; [done|]. split; [done|].
      eexists. split; [by rewrite <- app_assoc|]. split; [simpl; lia|].
      intros a Hin. cbn [app] in Hin. rewrite !elem_of_cons, elem_of_nil in Hin.
      destruct Hin as [->|[->|[]]]; eauto.
    + split; [done|]. split; [done|]. eexists. split; [done|]. split; [simpl; lia|].
      intros a Hin. apply list_elem_of_singleton in Hin as ->. eauto.
  - split; [done|]. split; [done|]. exists []. rewrite app_nil_r.
    split; [done|]. split; [simpl; lia|]. intros a Hin. by apply elem_of_nil in Hin.
Qed.



(** ** The trial configuration and the script *)

Section ScriptFurther.
Context {host : Host}.

(** The script is made from the root folder of the experiment and the
    record; the trial configuration has no part in it. *)
Lemma getScript_config r w svc h tr cfg :
  (getScript r w (mkState (with_localTrialConfig cfg svc) h tr)).1 =
  (getScript r w (mkState svc h tr)).1.
Proof.
  unfold getScript. rewrite !run_bind_getThis.
  destruct (String.eqb process_platform "win32").
  - repeat run_step. by destruct svc.
  - repeat run_step. destruct (String.eqb process_platform "darwin"); by destruct svc.
Qed.

(** The script off Windows, for a record with a given command and folder. *)
Lemma getScript_posix r w st e :
  String.eqb process_platform "win32" = false ->
  heap st !! r = Some e ->
  exists stamp,
    (stamp = "date +%s999" \/ stamp = "date +%s%3N") /\
    (getScript r w st).1 =
      Normal
        [ "cd " +:+ experimentRootDir (this st);
          "eval " +:+ Env.command e +:+ " --job_pid_file "
            +:+ (Env.runnerWorkingFolder e +:+ "/pid") +:+ " 1>"
            +:+ Env.runnerWorkingFolder e +:+ "/trialrunner_stdout 2>"
            +:+ Env.runnerWorkingFolder e +:+ "/trialrunner_stderr" +:+ dq;
          "echo $? " +:+ backtick +:+ stamp +:+ backtick +:+ " >'"
            +:+ (Env.runnerWorkingFolder e +:+ "/code") +:+ "'" ].
Proof.
  intros Hwin Hr. unfold getScript. rewrite run_bind_getThis, Hwin.
  repeat run_step. rewrite (lookup_total_correct _ _ _ Hr).
  destruct (String.eqb process_platform "darwin");
    [exists "date +%s999"|exists "date +%s%3N"]; (split; [auto|]);
    cbn [fst mret M_ret app]; rewrite !append_assoc; reflexivity.
Qed.

End ScriptFurther.

(** X15: what the trial configuration holds makes no difference to a start:
    with any two configurations stored, starting the same environment in the
    same world completes the same way, leaves the same records and does the
    same actions, the same script included.  The start only asks whether a
    configuration is there. *)
Theorem start_ignores_config_content {host : Host} (w : World) (st : State)
    (r : nat) (e : Env.t) (cfg1 cfg2 : json) :
  heap st !! r = Some e ->
  let st1 := mkState (with_localTrialConfig (Some cfg1) (this st)) (heap st) (trace st) in
  let st2 := mkState (with_localTrialConfig (Some cfg2) (this st)) (heap st) (trace st) in
  (startEnvironment r w st1).1 = (startEnvironment r w st2).1 /\
  heap (startEnvironment r w st1).2 = heap (startEnvironment r w st2).2 /\
  trace (startEnvironment r w st1).2 = trace (startEnvironment r w st2).2.
Proof.
  intros Hr st1 st2.
  destruct (startEnvironment_exact r w st1 e) as (script1 & Hscript1 & ->); [done..|].
  destruct (startEnvironment_exact r w st2 e) as (script2 & Hscript2 & ->); [done..|].
  assert (script1 = script2) as <-.
  { specialize (Hscript1 []). specialize (Hscript2 []).
    subst st1 st2. cbn [this heap trace] in Hscript1, Hscript2.
    rewrite getScript_config in Hscript1, Hscript2.
    destruct (this st) as [c root i].
    cbn [with_localTrialConfig experimentRootDir experimentId] in Hscript1, Hscript2.
    congruence. }
  subst st1 st2. destruct (this st) as [c root i]. done.
Qed.

Lemma start_ignores_config_content_witness :
  (startEnvironment (host := linux) 0%nat emptyWorld
     (mkState (with_localTrialConfig (Some JNull) (this experiment))
        (heap experiment) (trace experiment))).1
  = (startEnvironment (host := linux) 0%nat emptyWorld
       (mkState (with_localTrialConfig (Some (JBool true)) (this experiment))
          (heap experiment) (trace experiment))).1.
Proof.
  apply (start_ignores_config_content (host := linux) emptyWorld experiment 0%nat envA
           JNull (JBool true)).
  reflexivity.
Defined.

(** X16: the launcher script and the poller agree on where the markers
    are.  Where paths are joined as on POSIX and the platform is not Windows,
    a start of an environment whose id is a plain name, once the folder is
    made and the code copied, writes a script of three lines: it changes to
    the root folder of the experiment, runs the command that the record held
    with [--job_pid_file] set to the very path at which the poller will look
    for the pid marker of the record, and writes the exit code and a time
    stamp to the very path at which the poller will look for the exit-code
    marker. *)
Theorem launcher_names_marker_paths {host : Host} (w : World) (st : State)
    (r : nat) (e : Env.t) :
  (forall l, path_join l = Posix.join l) ->
  String.eqb process_platform "win32" = false ->
  localTrialConfig (this st) <> None ->
  heap st !! r = Some e ->
  plainName (Env.id e) = true ->
  let codeFolder := path_join [experimentRootDir (this st); "envs"] in
  let tempFolder :=
    path_join [experimentRootDir (this st); experimentId (this st);
               "environment-temp"; "envs"] in
  execMkdir w (path_join [codeFolder; Env.id e]) = Normal tt ->
  execCopydir w tempFolder codeFolder = Normal tt ->
  let st' := (startEnvironment r w st).2 in
  let folder := Env.runnerWorkingFolder (heap st' !!! r) in
  let jobpidPath := path_join [folder; "pid"] in
  let runnerReturnCodeFilePath := path_join [folder; "code"] in
  exists stamp,
    (stamp = "date +%s999" \/ stamp = "date +%s%3N") /\
    FsWriteFile (path_join [codeFolder; getScriptName "run"])
      (JS.join getNewLine
         [ "cd " +:+ experimentRootDir (this st);
           "eval " +:+ Env.command e +:+ " --job_pid_file " +:+ jobpidPath +:+ " 1>"
             +:+ folder +:+ "/trialrunner_stdout 2>"
             +:+ folder +:+ "/trialrunner_stderr" +:+ dq;
           "echo $? " +:+ backtick +:+ stamp +:+ backtick +:+ " >'"
             +:+ runnerReturnCodeFilePath +:+ "'" ])
      511 ∈ trace st'.
Proof.
  intros Hjoin Hwin Hcfg Hr Hid codeFolder tempFolder Hmkdir Hcopy
    st' folder jobpidPath runnerReturnCodeFilePath.
  destruct (startEnvironment_exact r w st e Hcfg Hr) as (script & Hscript & Hstart).
  fold codeFolder tempFolder in Hscript, Hstart.
  set (folder0 := path_join [codeFolder; Env.id e]) in *.
  assert (Hfolder : folder = folder0).
  { subst folder st'. rewrite Hstart. state_simpl. rewrite lookup_total_insert_eq.
    unfold startRecord. repeat case_match; by destruct e. }
  assert (Hpid : jobpidPath = folder0 +:+ "/pid").
  { subst jobpidPath. rewrite Hfolder. subst folder0 codeFolder.
    rewrite !Hjoin. by apply posix_join_join_plain;
      [apply posix_join_nonempty| |]. }
  assert (Hcode : runnerReturnCodeFilePath = folder0 +:+ "/code").
  { subst runnerReturnCodeFilePath. rewrite Hfolder. subst folder0 codeFolder.
    rewrite !Hjoin. by apply posix_join_join_plain;
      [apply posix_join_nonempty| |]. }
  destruct (getScript_posix r w
              (mkState (this st) (<[r := Env.with_runnerWorkingFolder folder0 e]> (heap st)) [])
              (Env.with_runnerWorkingFolder folder0 e) Hwin)
    as (stamp & Hstamp & Hlines); [cbn [heap]; by rewrite lookup_insert_eq|].
  rewrite Hscript in Hlines. injection Hlines as ->.
  exists stamp. split; [done|].
  rewrite Hpid, Hcode, Hfolder. subst st'. rewrite Hstart.
  cbn [Env.command Env.runnerWorkingFolder Env.with_runnerWorkingFolder this trace snd].
  unfold startOutcome. rewrite Hmkdir, Hcopy.
  apply elem_of_app. right.
  destruct (writeFile w _ _ 511) as [[]|err]; cbn [snd];
    rewrite !elem_of_cons; auto.
Qed.

Lemma launcher_names_marker_paths_witness :
  exists stamp,
    (stamp = "date +%s999" \/ stamp = "date +%s%3N") /\
    FsWriteFile "/tmp/exp/envs/run.sh"
      (JS.join (String "010" EmptyString)
         [ "cd /tmp/exp";
           "eval  --job_pid_file /tmp/exp/envs/a/pid 1>/tmp/exp/envs/a/trialrunner_stdout"
             +:+ " 2>/tmp/exp/envs/a/trialrunner_stderr" +:+ dq;
           "echo $? " +:+ backtick +:+ stamp +:+ backtick
             +:+ " >'/tmp/exp/envs/a/code'" ])
      511 ∈ trace (startEnvironment (host := linux) 0%nat emptyWorld configured).2.
Proof.
  apply (launcher_names_marker_paths (host := linux) emptyWorld configured 0%nat envA);
    done.
Defined.

(** X17: on Windows the command that the record held before does not
    reach the script: the script and the record that [getScript] leaves are
    the same whatever that command was, the runner being named in the
    script itself. *)
Theorem windows_script_ignores_command {host : Host} (w : World) (st : State)
    (r : nat) (e : Env.t) (command : string) :
  String.eqb process_platform "win32" = true ->
  heap st !! r = Some e ->
  getScript r w
    (mkState (this st) (<[r := Env.with_command command e]> (heap st)) (trace st))
  = getScript r w st.
Proof.
  intros Hwin Hr. destruct st as [svc h tr]. cbn [this heap trace] in *.
  unfold getScript. rewrite !run_bind_getThis, Hwin.
  repeat run_step. state_simpl.
  rewrite (alter_present _ _ _ _ Hr), alter_insert_eq.
  rewrite !lookup_total_insert_eq, (lookup_total_correct _ _ _ Hr).
  rewrite ?insert_insert_eq. by destruct e.
Qed.

Lemma windows_script_ignores_command_witness :
  getScript (host := win32) 0%nat emptyWorld
    (mkState (this experiment)
       (<[0%nat := Env.with_command "python runner.py" envA]> (heap experiment))
       (trace experiment))
  = getScript (host := win32) 0%nat emptyWorld experiment.
Proof.
  apply (windows_script_ignores_command (host := win32) emptyWorld experiment 0%nat envA
           "python runner.py"); reflexivity.
Defined.

(** X18: on a platform other than Windows a start wraps the command of the
    record: once the folder is made and the code copied, the command that
    the record holds is the script, whose second line runs the command that
    the record held before.  So the command is never what it was, and
    starting the same record again puts the whole earlier script inside the
    new one. *)
Theorem start_wraps_command {host : Host} (w : World) (st : State)
    (r : nat) (e : Env.t) :
  String.eqb process_platform "win32" = false ->
  localTrialConfig (this st) <> None ->
  heap st !! r = Some e ->
  let codeFolder := path_join [experimentRootDir (this st); "envs"] in
  let tempFolder :=
    path_join [experimentRootDir (this st); experimentId (this st);
               "environment-temp"; "envs"] in
  execMkdir w (path_join [codeFolder; Env.id e]) = Normal tt ->
  execCopydir w tempFolder codeFolder = Normal tt ->
  exists rest,
    Env.command (heap (startEnvironment r w st).2 !!! r) =
      "cd " +:+ experimentRootDir (this st) +:+ getNewLine +:+
      "eval " +:+ Env.command e +:+ " --job_pid_file " +:+ rest.
Proof.
  intros Hwin Hcfg Hr codeFolder tempFolder Hmkdir Hcopy.
  destruct (startEnvironment_exact r w st e Hcfg Hr) as (script & Hscript & ->).
  fold codeFolder tempFolder in Hscript |- *.
  set (folder := path_join [codeFolder; Env.id e]) in *.
  destruct (getScript_posix r w
              (mkState (this st) (<[r := Env.with_runnerWorkingFolder folder e]> (heap st)) [])
              (Env.with_runnerWorkingFolder folder e) Hwin)
    as (stamp & _ & Hlines); [cbn [heap]; by rewrite lookup_insert_eq|].
  rewrite Hscript in Hlines. injection Hlines as ->.
  state_simpl. rewrite lookup_total_insert_eq.
  unfold startRecord. rewrite Hmkdir, Hcopy.
  eexists.
  transitivity (JS.join getNewLine
    [ "cd " +:+ experimentRootDir (this st);
      "eval " +:+ Env.command e +:+ " --job_pid_file "
        +:+ (folder +:+ "/pid") +:+ " 1>"
        +:+ folder +:+ "/trialrunner_stdout 2>"
        +:+ folder +:+ "/trialrunner_stderr" +:+ dq;
      "echo $? " +:+ backtick +:+ stamp +:+ backtick +:+ " >'"
        +:+ (folder +:+ "/code") +:+ "'" ]).
  { by repeat case_match. }
  cbn [JS.join]. rewrite !append_assoc. reflexivity.
Qed.

Lemma start_wraps_command_witness :
  exists rest,
    Env.command
      (heap (startEnvironment (host := linux) 0%nat emptyWorld
               (mkState (this configured)
                  {[ 0%nat := Env.with_command "python runner.py" envA ]} [])).2
         !!! 0%nat) =
      "cd " +:+ "/tmp/exp" +:+ String "010" EmptyString +:+
      "eval " +:+ "python runner.py" +:+ " --job_pid_file " +:+ rest.
Proof.
  apply (start_wraps_command (host := linux) emptyWorld
           (mkState (this configured)
              {[ 0%nat := Env.with_command "python runner.py" envA ]} [])
           0%nat (Env.with_command "python runner.py" envA));
    done.
Defined.



(** X20: what the pattern of the exit-code marker accepts.  A string
    matches [/^-?(\d+)\s+(\d+)$/] exactly when it is an optional minus, one
    or more digits, one or more white-space characters and one or more
    digits, with nothing before or after; group 1 is then the first run of
    digits, without the minus, and group 2 the second. *)
Theorem return_code_pattern_accepts (t : string) (groups : gmap nat string) :
  JS.match_ t returnCodePattern = Some groups <->
  exists sign code gap stamp,
    returnCodeShape t sign code gap stamp /\
    groups = <[2%nat := stamp]> (<[1%nat := code]> ∅).
Proof.
  rewrite match_returnCodePattern. split.
  - destruct (returnCodeGroups t) as [[code stamp]|] eqn:Hg; [|done].
    intros [= <-]. apply returnCodeGroups_shape in Hg as (sign & gap & Hshape).
    by exists sign, code, gap, stamp.
  - intros (sign & code & gap & stamp & Hshape & ->).
    assert (Hg : returnCodeGroups t = Some (code, stamp))
      by (apply returnCodeGroups_shape; eauto).
    by rewrite Hg.
Qed.

(** X21: joining the empty folder with a marker name gives the bare name.
    Where paths are joined as on POSIX, a poll of an environment whose
    working folder is still the empty string asks for the pid marker at the
    relative path [pid], and a stop of it, if it is alive, reads that same
    relative path: both look into the working directory of the process. *)
Theorem unstarted_environment_markers {host : Host} (w : World) (st : State)
    (r : nat) (e : Env.t) :
  (forall l, path_join l = Posix.join l) ->
  heap st !! r = Some e ->
  Env.runnerWorkingFolder e = EmptyString ->
  Env.isAlive e = true ->
  (exists rest,
     trace (refreshEnvironmentsStatus [r] w st).2
       = trace st ++ FsExistsSync "pid" :: rest) /\
  (exists rest,
     trace (stopEnvironment r w st).2 = trace st ++ FsReadFile "pid" :: rest).
Proof.
  intros Hjoin Hr Hfolder Halive.
  assert (Hpid : path_join [EmptyString; "pid"] = "pid") by by rewrite Hjoin.
  split.
  - unfold refreshEnvironmentsStatus. cbn [forEach_async].
    rewrite (refreshEnvironmentStatus_eq r w st e Hr). state_simpl.
    unfold polledActions, pidPathOf. rewrite Hfolder, Hpid. eauto.
  - unfold stopEnvironment.
    rewrite run_bind_get, (lookup_total_correct _ _ _ Hr), Halive. cbn [negb].
    rewrite run_bind_get, (lookup_total_correct _ _ _ Hr), Hfolder, Hpid.
    unfold fs_promises_readFile. rewrite run_bind_ask.
    destruct (readFile w _) as [pid|err]; state_simpl; [|eauto].
    unfold tkill, perform. state_simpl. rewrite <- app_assoc. eauto.
Qed.

Lemma unstarted_environment_markers_witness :
  (exists rest,
     trace (refreshEnvironmentsStatus (host := linux) [0%nat] emptyWorld
              (mkState (newService "exp" "/tmp/exp")
                 {[ 0%nat := newEnvironment "a" ]} [])).2
       = [] ++ FsExistsSync "pid" :: rest) /\
  (exists rest,
     trace (stopEnvironment (host := linux) 0%nat emptyWorld
              (mkState (newService "exp" "/tmp/exp")
                 {[ 0%nat := newEnvironment "a" ]} [])).2
       = [] ++ FsReadFile "pid" :: rest).
Proof.
  apply (unstarted_environment_markers (host := linux) emptyWorld
           (mkState (newService "exp" "/tmp/exp") {[ 0%nat := newEnvironment "a" ]} [])
           0%nat (newEnvironment "a")); done.
Defined.

(** ** Calls in sequence *)



(** X23: a poll that follows a start looks for the markers in the folder
    that the start gave the record.  After a start in which the folder is
    made, the code copied, the script written and run, a poll in a later
    world that has the pid marker in that folder, of a process that is
    alive, makes the record RUNNING; until then the record keeps the status
    it was started with. *)
Theorem poll_after_start {host : Host} (w w' : World) (st : State)
    (r : nat) (e : Env.t) (pid : string) :
  localTrialConfig (this st) <> None ->
  heap st !! r = Some e ->
  let codeFolder := path_join [experimentRootDir (this st); "envs"] in
  let tempFolder :=
    path_join [experimentRootDir (this st); experimentId (this st);
               "environment-temp"; "envs"] in
  let folder := path_join [codeFolder; Env.id e] in
  let scriptPath := path_join [codeFolder; getScriptName "run"] in
  execMkdir w folder = Normal tt ->
  execCopydir w tempFolder codeFolder = Normal tt ->
  (forall data, writeFile w scriptPath data 511 = Normal tt) ->
  runScript w scriptPath = Normal tt ->
  existsSync w' (path_join [folder; "pid"]) = true ->
  readFile w' (path_join [folder; "pid"]) = Normal pid ->
  isAlive w' pid = Normal true ->
  let st1 := (startEnvironment r w st).2 in
  let st2 := (refreshEnvironmentsStatus [r] w' st1).2 in
  Env.status (heap st1 !!! r) = Env.status e /\
  exists data,
    heap st2 !! r =
      Some (Env.mk (Env.id e) RUNNING data folder folder (Env.isAlive e)).
Proof.
  intros Hcfg Hr codeFolder tempFolder folder scriptPath Hmkdir Hcopy Hwrite Hrun
    Hpid Hpidr Halive st1 st2.
  destruct (startEnvironment_exact r w st e Hcfg Hr) as (script & _ & Hstart).
  fold codeFolder tempFolder folder scriptPath in Hstart.
  revert Hstart. unfold startOutcome, startRecord.
  rewrite Hmkdir, Hcopy, Hwrite, Hrun.
  unfold Env.with_trackingUrl, Env.with_command, Env.with_runnerWorkingFolder.
  cbn [fst snd Env.id Env.status Env.command Env.runnerWorkingFolder Env.trackingUrl
         Env.isAlive].
  intros Hstart. subst st2 st1. rewrite Hstart. state_simpl.
  rewrite lookup_total_insert_eq. split; [done|].
  exists (JS.join getNewLine script).
  erewrite refreshEnvironmentsStatus_lookup by (cbn [heap]; apply lookup_insert_eq).
  rewrite bool_decide_eq_true_2 by (apply elem_of_cons; by left).
  unfold polledStatus, pidPathOf. cbn [Env.runnerWorkingFolder Env.status].
  by rewrite Hpid, Hpidr, Halive.
Qed.

Lemma poll_after_start_witness :
  Env.status (heap (startEnvironment (host := linux) 0%nat emptyWorld configured).2
                !!! 0%nat) = WAITING /\
  exists data,
    heap (refreshEnvironmentsStatus (host := linux) [0%nat] (withProcess "4242" started)
            (startEnvironment (host := linux) 0%nat emptyWorld configured).2).2 !! 0%nat =
      Some (Env.mk "a" RUNNING data "/tmp/exp/envs/a" "/tmp/exp/envs/a" true).
Proof.
  apply (poll_after_start (host := linux) emptyWorld (withProcess "4242" started)
           configured 0%nat envA "4242"); done.
Defined.
